(** * Benchmark-log scripts of montgomery_pow_2kary: firstline.py and remove_lines.py

  A shallow embedding of the two Python scripts

    - [firstline.py]     (the "Record Locator")
    - [remove_lines.py]  (the "Substring Filter")

  together with the part of the Python runtime they lean on: the string
  built-ins [in], [str.strip], [str.split] and [int], text files, [print],
  [sys.exit], exceptions and the interpreter's treatment of an exception
  that reaches the top level.

  Modelling scope.
    - A Python [str] is a [string]: a sequence of code points below 256.
      On that range the character classes below are the ones of CPython
      ([str.isspace], the blanks [int] skips, decimal digits).
    - The text of a file is what Python's text layer delivers: decoded, with
      universal newlines already applied, so a line ends at a line feed.
      A file that does not decode raises [UnicodeDecodeError] when it is
      read.
    - A path leads to a file; two paths may lead to the same file.
    - [open] may be refused, and writing to a file may fail; a write either
      fails from the first character on or not at all.
    - Writing to standard output always succeeds. *)

From Stdlib Require Import String Ascii List ZArith Bool Arith Lia.
Import ListNotations.
Open Scope string_scope.

(* ===================================================================== *)
(** ** Python string built-ins *)
(* ===================================================================== *)

Module PyStr.

(** The line feed, ["\n"] in the source. *)
Definition LF : ascii := ascii_of_nat 10.

(** [c.isspace()] for a code point below 256: TAB, LF, VT, FF, CR, the
    separators FS, GS, RS, US, the space, NEL and the no-break space. *)
Definition isspace (c : ascii) : bool :=
  let n := nat_of_ascii c in
  (((9 <=? n) && (n <=? 13)) || ((28 <=? n) && (n <=? 32))
   || (n =? 133) || (n =? 160))%nat.

(** [sub in s]. *)
Fixpoint contains (sub s : string) : bool :=
  prefix sub s ||
  match s with
  | EmptyString => false
  | String _ s' => contains sub s'
  end.

(** Removal of the leading and of the trailing characters of a class. *)
Fixpoint lstrip_of (space : ascii -> bool) (s : string) : string :=
  match s with
  | EmptyString => EmptyString
  | String c s' => if space c then lstrip_of space s' else s
  end.

Fixpoint rstrip_of (space : ascii -> bool) (s : string) : string :=
  match s with
  | EmptyString => EmptyString
  | String c s' =>
      match rstrip_of space s' with
      | EmptyString => if space c then EmptyString else String c EmptyString
      | r => String c r
      end
  end.

Definition lstrip (s : string) : string := lstrip_of isspace s.
Definition rstrip (s : string) : string := rstrip_of isspace s.

(** [s.strip()] with no argument. *)
Definition strip (s : string) : string := rstrip (lstrip s).

(** [s.split()] with no argument: the maximal runs of non-space characters.
    [tok] is the field being read. *)
Fixpoint split_from (s tok : string) : list string :=
  match s with
  | EmptyString => match tok with EmptyString => [] | _ => [tok] end
  | String c s' =>
      if isspace c
      then match tok with
           | EmptyString => split_from s' EmptyString
           | _ => tok :: split_from s' EmptyString
           end
      else split_from s' (tok ++ String c EmptyString)
  end.

Definition split (s : string) : list string := split_from s EmptyString.

Definition digit (c : ascii) : option Z :=
  let n := nat_of_ascii c in
  if ((48 <=? n) && (n <=? 57))%nat then Some (Z.of_nat (n - 48)) else None.

(** The digits of a decimal literal; a single underscore may separate two
    digits.  [after_digit] tells whether the previous character was one. *)
Fixpoint digits (s : string) (acc : Z) (after_digit : bool) : option Z :=
  match s with
  | EmptyString => if after_digit then Some acc else None
  | String c s' =>
      match digit c with
      | Some d => digits s' (10 * acc + d) true
      | None =>
          if Ascii.eqb c "_" && after_digit then digits s' acc false else None
      end
  end.

(** The blanks [int] skips around a literal: TAB, LF, VT, FF, CR and the
    space, and, of the code points from 128 on, NEL and the no-break space.
    The separators FS, GS, RS and US are not among them. *)
Definition int_space (c : ascii) : bool :=
  let n := nat_of_ascii c in
  (((9 <=? n) && (n <=? 13)) || (n =? 32) || (n =? 133) || (n =? 160))%nat.

(** The number of digits of a literal, underscores not counted. *)
Fixpoint digit_count (s : string) : nat :=
  match s with
  | EmptyString => 0
  | String c s' =>
      match digit c with
      | Some _ => S (digit_count s')
      | None => digit_count s'
      end
  end.

(** The interpreter's default limit on the digits [int] converts
    ([sys.int_info.default_max_str_digits]); the scripts do not change it. *)
Definition max_str_digits : nat := 4300.

Definition literal (s : string) : option Z :=
  if (max_str_digits <? digit_count s)%nat then None else digits s 0 false.

(** [int(s)] in base ten; [None] stands for the [ValueError] it raises: for
    a string that is no literal, and for one with more than
    [max_str_digits] digits. *)
Definition int (s : string) : option Z :=
  match rstrip_of int_space (lstrip_of int_space s) with
  | String "-" s' => option_map Z.opp (literal s')
  | String "+" s' => literal s'
  | s' => literal s'
  end.

(** [f.readlines()] on the text of a file: every line keeps its line feed,
    the last one may lack it. *)
Fixpoint readlines (s : string) : list string :=
  match s with
  | EmptyString => []
  | String c s' =>
      if Ascii.eqb c LF then String c EmptyString :: readlines s'
      else match readlines s' with
           | [] => [String c EmptyString]
           | l :: ls => String c l :: ls
           end
  end.

End PyStr.

(* ===================================================================== *)
(** ** The Python runtime the scripts use *)
(* ===================================================================== *)

Module Py.

(** The [OSError] subclasses [open] and [write] raise. *)
Inductive os_error :=
| FileNotFoundError
| PermissionError
| IsADirectoryError
| OtherOSError (errno : Z).

(** [UnicodeDecodeError] is a subclass of [ValueError]. *)
Inductive exn :=
| SystemExit (code : Z)
| StopIteration
| ValueError
| UnicodeDecodeError
| IndexError
| OSError (e : os_error).

(** A file is named by its path. *)
Abbreviation path := string (only parsing).

(** The file itself, whatever path led to it: two spellings of a path, a
    path and a link to it, lead to the same [inode]. *)
Inductive inode := Inode (label : string).

Definition inode_eqb (i j : inode) : bool :=
  match i, j with Inode a, Inode b => String.eqb a b end.

(** What a file holds: a text, or bytes that do not decode; of these,
    [delivered] is the text of the lines read before the decoder fails. *)
Inductive file_data :=
| Text (t : string)
| Garbled (delivered : string).

Definition delivered_text (d : file_data) : string :=
  match d with Text t | Garbled t => t end.

(** What a script can observe and change.
    [node p] is the file the path [p] leads to, whether it exists or not;
    [data i] is what the file [i] holds, if it exists;
    [deny_read p] and [deny_write p] give the error with which [open]
    refuses [p] in mode ['r'] and ['w'] (permissions, a directory in the
    way, a missing parent directory);
    [write_fault i] gives the error with which writing to [i] fails (a full
    device), if it does;
    [stdout] holds what was printed so far, one entry for each call of
    [print], without the line feed [print] adds. *)
Record world := World {
  node        : path -> inode;
  data        : inode -> option file_data;
  deny_read   : path -> option os_error;
  deny_write  : path -> option os_error;
  write_fault : inode -> option os_error;
  stdout      : list string
}.

(** The text of the file at a path, if there is a file and it decodes. *)
Definition content (w : world) (p : path) : option string :=
  match data w (node w p) with
  | Some (Text t) => Some t
  | _ => None
  end.

Inductive result (A : Type) :=
| Ok (a : A)
| Raise (e : exn).
Arguments Ok {A} a.
Arguments Raise {A} e.

(** A computation: it returns or raises, and leaves a world behind. *)
Definition M (A : Type) : Type := world -> result A * world.

Definition ret {A} (a : A) : M A := fun w => (Ok a, w).

Definition bind {A B} (m : M A) (k : A -> M B) : M B :=
  fun w =>
    match m w with
    | (Ok a, w') => k a w'
    | (Raise e, w') => (Raise e, w')
    end.

Definition raise {A} (e : exn) : M A := fun w => (Raise e, w).

(** [try: m  except <class>: handler]; [class] decides which exceptions the
    clause catches, every other one propagates. *)
Definition try_except {A} (m : M A) (class : exn -> bool) (handler : M A) : M A :=
  fun w =>
    match m w with
    | (Ok a, w') => (Ok a, w')
    | (Raise e, w') => if class e then handler w' else (Raise e, w')
    end.

Definition put_line (w : world) (s : string) : world :=
  World (node w) (data w) (deny_read w) (deny_write w) (write_fault w)
        (stdout w ++ [s]).

Definition print (s : string) : M unit := fun w => (Ok tt, put_line w s).

(** [sys.exit(code)]. *)
Definition sys_exit {A} (code : Z) : M A := raise (SystemExit code).

(** [l[i]] for an index that is not negative. *)
Definition getitem {A} (l : list A) (i : nat) : M A :=
  match nth_error l i with
  | Some x => ret x
  | None => raise IndexError
  end.

(** [int(s)]. *)
Definition int (s : string) : M Z :=
  match PyStr.int s with
  | Some n => ret n
  | None => raise ValueError
  end.

(** Index of the first element satisfying [p]. *)
Fixpoint first_index {A} (p : A -> bool) (l : list A) : option nat :=
  match l with
  | [] => None
  | x :: l' => if p x then Some 0 else option_map S (first_index p l')
  end.

(** [next(i for i, x in enumerate(l) if p x)]. *)
Definition next_index {A} (p : A -> bool) (l : list A) : M nat :=
  match first_index p l with
  | Some i => ret i
  | None => raise StopIteration
  end.

(** [l[lo:hi]] for bounds that are not negative. *)
Definition slice {A} (l : list A) (lo hi : nat) : list A :=
  firstn (hi - lo) (skipn lo l).

(** An open file refers to the file, not to the path it was opened by. *)
Abbreviation file := inode (only parsing).

(** [open(p, 'r')]. *)
Definition open_read (p : path) : M file :=
  fun w =>
    match deny_read w p with
    | Some e => (Raise (OSError e), w)
    | None =>
        match data w (node w p) with
        | Some _ => (Ok (node w p), w)
        | None => (Raise (OSError FileNotFoundError), w)
        end
    end.

Definition set_data (w : world) (i : inode) (d : file_data) : world :=
  World (node w)
        (fun j => if inode_eqb j i then Some d else data w j)
        (deny_read w) (deny_write w) (write_fault w) (stdout w).

(** [open(p, 'w')]: creates the file the path leads to, or empties it. *)
Definition open_write (p : path) : M file :=
  fun w =>
    match deny_write w p with
    | Some e => (Raise (OSError e), w)
    | None => (Ok (node w p), set_data w (node w p) (Text EmptyString))
    end.

(** [f.readlines()]: all the lines, or the decoder's error. *)
Definition readlines (f : file) : M (list string) :=
  fun w =>
    match data w f with
    | Some (Text t) => (Ok (PyStr.readlines t), w)
    | Some (Garbled _) => (Raise UnicodeDecodeError, w)
    | None => (Ok [], w)
    end.

(** [for line in f]: the lines the loop goes through, and the error that
    ends it if the file does not decode to its end. *)
Definition iterate (f : file) : M (list string * option exn) :=
  fun w =>
    match data w f with
    | Some (Text t) => (Ok (PyStr.readlines t, None), w)
    | Some (Garbled t) => (Ok (PyStr.readlines t, Some UnicodeDecodeError), w)
    | None => (Ok ([], None), w)
    end.

(** The text an open file has at this moment. *)
Definition text_of (w : world) (f : file) : string :=
  match data w f with
  | Some d => delivered_text d
  | None => EmptyString
  end.

(** [f.write(s)].  The error of a write that fails is raised by the call
    here; buffering may delay it to the end of the [with] block, inside the
    same function. *)
Definition write (f : file) (s : string) : M unit :=
  fun w =>
    match write_fault w f with
    | Some e => (Raise (OSError e), w)
    | None => (Ok tt, set_data w f (Text (text_of w f ++ s)))
    end.

(** How the process ends.  [traceback] is the exception the interpreter
    reports on standard error when one reaches the top level; [disk] is the
    text found at each path afterwards. *)
Record process := Process {
  status    : Z;
  printed   : list string;
  traceback : option exn;
  disk      : path -> option string
}.

(** [if __name__ == "__main__": main()] run by the interpreter: a normal
    return ends with status 0, [sys.exit(n)] with status [n], any other
    exception with a traceback and status 1. *)
Definition run (main : M unit) (w : world) : process :=
  match main w with
  | (Ok _, w') => Process 0 (stdout w') None (content w')
  | (Raise (SystemExit code), w') => Process code (stdout w') None (content w')
  | (Raise e, w') => Process 1 (stdout w') (Some e) (content w')
  end.

End Py.

Declare Scope py_scope.
Delimit Scope py_scope with py.
Notation "x <- m ;; k" := (Py.bind m (fun x => k))
  (at level 61, m at next level, right associativity) : py_scope.
Notation "' pat <- m ;; k" := (Py.bind m (fun x => match x with pat => k end))
  (at level 61, pat pattern, m at next level, right associativity) : py_scope.
Notation "m ;; k" := (Py.bind m (fun _ => k))
  (at level 61, right associativity) : py_scope.
Open Scope py_scope.

(* ===================================================================== *)
(** ** firstline.py *)
(* ===================================================================== *)

Module firstline.
Import Py.

Definition START_MARKER := "OVERALL BEST:".
Definition END_MARKER := "Timings By Test Type:".
Definition USAGE := "Usage: python3 script.py <filename>".
Definition MARKERS_MISSING := "Error: Could not find required markers in the file.".
Definition NO_LINE := "No line found where the third field is less than 6.".

Definition not_found (filename : string) : string :=
  "Error: File '" ++ filename ++ "' not found.".

Definition is_FileNotFoundError (e : exn) : bool :=
  match e with OSError FileNotFoundError => true | _ => false end.
Definition is_StopIteration (e : exn) : bool :=
  match e with StopIteration => true | _ => false end.
Definition is_ValueError (e : exn) : bool :=
  match e with ValueError | UnicodeDecodeError => true | _ => false end.

(** How one pass through the loop body ends. *)
Inductive flow := Continue | Return.

(** The body of [for line in lines[start_index + 1:end_index]]. *)
Definition body (line : string) : M flow :=
  let parts := PyStr.split (PyStr.strip line) in
  if negb (length parts =? 7)%nat then ret Continue
  else
    parsed <- try_except
                (field <- getitem parts 2 ;;
                 third_field <- int field ;;
                 ret (Some third_field))
                is_ValueError
                (ret None) ;;
    match parsed with
    | None => ret Continue
    | Some third_field =>
        if (third_field <? 6)%Z
        then print (PyStr.strip line) ;; ret Return
        else ret Continue
    end.

Fixpoint for_lines (lines : list string) : M flow :=
  match lines with
  | [] => ret Continue
  | line :: rest =>
      f <- body line ;;
      match f with
      | Return => ret Return
      | Continue => for_lines rest
      end
  end.

Definition main (argv : list string) : M unit :=
  if negb (length argv =? 2)%nat
  then print USAGE ;; sys_exit 1
  else
    filename <- getitem argv 1 ;;
    lines <- try_except
               (file <- open_read filename ;; readlines file)
               is_FileNotFoundError
               (print (not_found filename) ;; sys_exit 1) ;;
    '(start_index, end_index) <-
       try_except
         (start_index <- next_index (PyStr.contains START_MARKER) lines ;;
          end_index <- next_index (PyStr.contains END_MARKER) lines ;;
          ret (start_index, end_index))
         is_StopIteration
         (print MARKERS_MISSING ;; sys_exit 1) ;;
    f <- for_lines (slice lines (start_index + 1) end_index) ;;
    match f with
    | Return => ret tt
    | Continue => print NO_LINE
    end.

End firstline.

(* ===================================================================== *)
(** ** remove_lines.py *)
(* ===================================================================== *)

Module remove_lines.
Import Py.

Definition USAGE :=
  "Usage: python remove_lines.py <input_file> <search_string> <output_file>".

Definition done (search_string output_filename : string) : string :=
  "Lines containing '" ++ search_string ++ "' have been written to '"
    ++ output_filename ++ "'.".

(** [for line in infile: if search_string not in line: outfile.write(line)] *)
Fixpoint copy_lines (search_string : string) (outfile : file)
         (lines : list string) : M unit :=
  match lines with
  | [] => ret tt
  | line :: rest =>
      (if negb (PyStr.contains search_string line)
       then write outfile line
       else ret tt) ;;
      copy_lines search_string outfile rest
  end.

(** Both files are opened, the input first, before a line is read: the
    lines are those the input has once the output has been emptied.  The
    loop ends with the decoder's error if the input does not decode. *)
Definition remove_lines (input_filename search_string output_filename : string)
  : M unit :=
  infile <- open_read input_filename ;;
  outfile <- open_write output_filename ;;
  '(lines, failure) <- iterate infile ;;
  copy_lines search_string outfile lines ;;
  match failure with
  | Some e => raise e
  | None => ret tt
  end.

Definition main (argv : list string) : M unit :=
  if negb (length argv =? 4)%nat
  then print USAGE ;; sys_exit 1
  else
    input_filename <- getitem argv 1 ;;
    search_string <- getitem argv 2 ;;
    output_filename <- getitem argv 3 ;;
    remove_lines input_filename search_string output_filename ;;
    print (done search_string output_filename).

End remove_lines.

(* ===================================================================== *)
(** ** The vocabulary of the specification *)
(* ===================================================================== *)

Module Spec.

(** A qualifying line: exactly seven whitespace-separated fields, the third
    of which parses as an integer below 6. *)
Definition qualifying (line : string) : bool :=
  let parts := PyStr.split (PyStr.strip line) in
  (length parts =? 7)%nat &&
  match nth_error parts 2 with
  | Some field =>
      match PyStr.int field with
      | Some third_field => (third_field <? 6)%Z
      | None => false
      end
  | None => false
  end.

(** A line that is no record: its field count is not seven, or its third
    field does not parse as an integer. *)
Definition malformed (line : string) : bool :=
  let parts := PyStr.split (PyStr.strip line) in
  negb (length parts =? 7)%nat ||
  match nth_error parts 2 with
  | Some field =>
      match PyStr.int field with
      | Some _ => false
      | None => true
      end
  | None => false
  end.

(** [i] is the index of the first element of [l] satisfying [p]. *)
Definition first_at {A} (p : A -> bool) (l : list A) (i : nat) : Prop :=
  (exists x, nth_error l i = Some x /\ p x = true) /\
  (forall j y, j < i -> nth_error l j = Some y -> p y = false).

(** Whitespace only. *)
Fixpoint blank (s : string) : bool :=
  match s with
  | EmptyString => true
  | String c s' => PyStr.isspace c && blank s'
  end.

Definition starts_with_space (s : string) : bool :=
  match s with
  | EmptyString => false
  | String c _ => PyStr.isspace c
  end.

Fixpoint ends_with_space (s : string) : bool :=
  match s with
  | EmptyString => false
  | String c EmptyString => PyStr.isspace c
  | String _ s' => ends_with_space s'
  end.

(** [t] is [s] trimmed: [s] without the whitespace it begins and ends
    with. *)
Definition trimmed (s t : string) : Prop :=
  (exists lead trail,
     s = lead ++ t ++ trail /\ blank lead = true /\ blank trail = true) /\
  starts_with_space t = false /\
  ends_with_space t = false.

(** A line that ends in its line feed and has no other. *)
Fixpoint complete (s : string) : Prop :=
  match s with
  | EmptyString => False
  | String c s' =>
      if Ascii.eqb c PyStr.LF then s' = EmptyString else complete s'
  end.

(** A last line without line feed: not empty, no line feed in it. *)
Fixpoint partial (s : string) : Prop :=
  match s with
  | EmptyString => False
  | String c s' =>
      Ascii.eqb c PyStr.LF = false /\ (s' = EmptyString \/ partial s')
  end.

(** The lines of a text file: all complete, except possibly the last. *)
Fixpoint file_lines (ls : list string) : Prop :=
  match ls with
  | [] => True
  | l :: ls' => (complete l /\ file_lines ls') \/ (partial l /\ ls' = [])
  end.

(** The text of a file written line by line. *)
Definition join (ls : list string) : string := fold_right append EmptyString ls.

(** The lines the filter keeps and the lines it removes. *)
Definition kept (search_string : string) (lines : list string) : list string :=
  filter (fun line => negb (PyStr.contains search_string line)) lines.
Definition removed (search_string : string) (lines : list string) : list string :=
  filter (PyStr.contains search_string) lines.

(** The error with which [open(p, 'r')] refuses a file that is missing or
    cannot be opened, if it does. *)
Definition read_refusal (w : Py.world) (p : Py.path) : option Py.os_error :=
  match Py.deny_read w p with
  | Some e => Some e
  | None =>
      match Py.data w (Py.node w p) with
      | Some _ => None
      | None => Some Py.FileNotFoundError
      end
  end.

(** The two paths lead to one file. *)
Definition same_file (w : Py.world) (p q : Py.path) : Prop :=
  Py.node w p = Py.node w q.



(** The world once the output has been opened. *)
Definition emptied (w : Py.world) (out : Py.path) : Py.world :=
  Py.set_data w (Py.node w out) (Py.Text EmptyString).

(** The lines the filter's loop goes through. *)
Definition source_lines (w : Py.world) (inp out : Py.path) : list string :=
  PyStr.readlines (Py.text_of (emptied w out) (Py.node w inp)).

(** Whether the loop ends with the decoder's error. *)
Definition source_garbled (w : Py.world) (inp out : Py.path) : bool :=
  match Py.data (emptied w out) (Py.node w inp) with
  | Some (Py.Garbled _) => true
  | _ => false
  end.

(** The text of the output after the loop. *)
Definition written (w : Py.world) (inp sub out : Py.path) : string :=
  match Py.write_fault w (Py.node w out) with
  | Some _ => EmptyString
  | None => join (kept sub (source_lines w inp out))
  end.

(** The exception that ends the loop, if one does. *)
Definition loop_error (w : Py.world) (inp sub out : Py.path) : option Py.exn :=
  match Py.write_fault w (Py.node w out), kept sub (source_lines w inp out) with
  | Some e, _ :: _ => Some (Py.OSError e)
  | _, _ => if source_garbled w inp out then Some Py.UnicodeDecodeError else None
  end.

(** [w'] differs from [w] at most in the file [f], which now holds the text
    [new]. *)
Definition extends (w w' : Py.world) (f : Py.inode) (new : string) : Prop :=
  Py.data w' f = Some (Py.Text new) /\
  (forall j, j <> f -> Py.data w' j = Py.data w j) /\
  Py.node w' = Py.node w /\
  Py.deny_read w' = Py.deny_read w /\
  Py.deny_write w' = Py.deny_write w /\
  Py.write_fault w' = Py.write_fault w.

(** The world a script leaves behind. *)
Definition after (m : Py.M unit) (w : Py.world) : Py.world := snd (m w).

(** A world with one file and nothing printed yet, for the examples: every
    path leads to a file of its own, and nothing is refused. *)
Definition one_file (name text : string) : Py.world :=
  Py.World Py.Inode
           (fun i => if Py.inode_eqb i (Py.Inode name)
                     then Some (Py.Text text) else None)
           (fun _ => None) (fun _ => None) (fun _ => None) [].

(** The text whose lines are [ls], each closed by a line feed. *)
Definition unlines (ls : list string) : string :=
  join (map (fun l => l ++ String PyStr.LF EmptyString) ls).

End Spec.

(* ===================================================================== *)
(** ** Sample files *)
(* ===================================================================== *)

Module Samples.

(** A benchmark log: the region between the markers holds a slow record, two
    lines that are no records, and two qualifying records. *)
Definition bench_text : string :=
  Spec.unlines ["header"; "OVERALL BEST:"; "a b 7 d e f g"; "a b x d e f g";
                "short line"; "  a b 3 d e f g  "; "a b 1 d e f g";
                "Timings By Test Type:"; "a b 0 d e f g"].
Definition bench : Py.world := Spec.one_file "bench.txt" bench_text.


(** A log without start marker. *)
Definition headless_text : string :=
  Spec.unlines ["a b 1 d e f g"; "Timings By Test Type:"].
Definition headless : Py.world := Spec.one_file "headless.txt" headless_text.


(** The input of the filter; its last line has no line feed. *)
Definition notes_text : string := Spec.unlines ["keep1"; "drop-me"] ++ "keep2".
Definition notes : Py.world := Spec.one_file "notes.txt" notes_text.

(** A world whose only file may not be read, and where nothing may be written
    below [/proc]. *)
Definition guarded : Py.world :=
  Py.World Py.Inode
           (fun i => if Py.inode_eqb i (Py.Inode "secret.txt")
                     then Some (Py.Text "top") else None)
           (fun p => if String.eqb p "secret.txt"
                     then Some Py.PermissionError else None)
           (fun p => if prefix "/proc/" p then Some Py.PermissionError else None)
           (fun _ => None)
           [].

End Samples.

Module MoreSamples.

(** A log with the region of [Samples.bench_text] and other lines around it. *)
Definition framed_text : string :=
  Spec.unlines ["a b 2 d e f g"; "x OVERALL BEST: y"; "a b 7 d e f g";
                "a b x d e f g"; "short line"; "  a b 3 d e f g  ";
                "a b 1 d e f g"; "Timings By Test Type: z"; "OVERALL BEST:";
                "a b 4 d e f g"; "Timings By Test Type:"].
Definition framed : Py.world := Spec.one_file "framed.txt" framed_text.

(** The path without a leading [./]. *)
Definition plain (p : string) : string :=
  match p with
  | String "." (String "/" rest) => rest
  | _ => p
  end.

(** The notes, in a world where [./name] and [name] lead to the same file. *)
Definition linked : Py.world :=
  Py.World (fun p => Py.Inode (plain p))
           (fun i => if Py.inode_eqb i (Py.Inode "notes.txt")
                     then Some (Py.Text Samples.notes_text) else None)
           (fun _ => None) (fun _ => None) (fun _ => None) [].

(** A file that decodes up to its second line; it holds both markers. *)
Definition torn : Py.world :=
  Py.World Py.Inode
           (fun i => if Py.inode_eqb i (Py.Inode "torn.txt")
                     then Some (Py.Garbled
                                  (Spec.unlines ["OVERALL BEST:";
                                                 "Timings By Test Type:"]))
                     else None)
           (fun _ => None) (fun _ => None) (fun _ => None) [].

(** The notes, with a device that takes no data behind [/dev/full]. *)
Definition full : Py.world :=
  Py.World Py.Inode
           (fun i => if Py.inode_eqb i (Py.Inode "notes.txt")
                     then Some (Py.Text Samples.notes_text)
                     else if Py.inode_eqb i (Py.Inode "/dev/full")
                     then Some (Py.Text EmptyString) else None)
           (fun _ => None) (fun _ => None)
           (fun i => if Py.inode_eqb i (Py.Inode "/dev/full")
                     then Some (Py.OtherOSError 28) else None)
           [].

(** A literal of [n] digits. *)
Fixpoint ones (n : nat) : string :=
  match n with
  | O => EmptyString
  | S n' => String "1" (ones n')
  end.

(** A record whose third field is a negative number of [n] digits. *)
Definition long_record (n : nat) : string :=
  "a b -" ++ ones n ++ " d e f g".

(** A log whose first record has a third field of 4301 digits. *)
Definition overlong_text : string :=
  Spec.unlines ["OVERALL BEST:"; long_record 4301; "a b 1 d e f g";
                "Timings By Test Type:"].
Definition overlong : Py.world := Spec.one_file "overlong.txt" overlong_text.

End MoreSamples.

(* ===================================================================== *)
(** ** Lists: the first index, slices *)
(* ===================================================================== *)

Section FirstIndex.
Context {A : Type} (p : A -> bool).

Lemma first_index_sound l i :
  Py.first_index p l = Some i -> Spec.first_at p l i.
Proof.
  revert i; induction l as [|x l IH]; intros i; simpl; [discriminate|].
  destruct (p x) eqn:Hx.
  - intros [= <-]; split; [exists x; auto | intros j y Hj; lia].
  - destruct (Py.first_index p l) as [k|]; [|discriminate].
    intros [= <-]; destruct (IH k eq_refl) as [Hk Hmin]; split; [exact Hk|].
    intros [|j] y Hj; simpl; [intros [= <-]; exact Hx | apply Hmin; lia].
Qed.

Lemma first_index_complete l i :
  Spec.first_at p l i -> Py.first_index p l = Some i.
Proof.
  revert i; induction l as [|x l IH]; intros i [[y [Hy Hp]] Hmin].
  - destruct i; discriminate.
  - simpl; destruct i as [|i]; simpl in Hy.
    + injection Hy as ->; rewrite Hp; reflexivity.
    + rewrite (Hmin 0 x) by (simpl; auto; lia).
      rewrite (IH i); [reflexivity|].
      split; [exists y; auto|].
      intros j z Hj Hz; apply (Hmin (S j) z); [lia | exact Hz].
Qed.


(** An element satisfying [p] at [i] puts the first index at or before [i]. *)
Lemma first_index_le l i x :
  nth_error l i = Some x -> p x = true ->
  exists k, k <= i /\ Py.first_index p l = Some k.
Proof.
  revert i; induction l as [|y l IH]; intros [|i]; simpl; try discriminate.
  - intros [= ->] ->; exists 0; auto.
  - intros Hx Hp; destruct (p y); [exists 0; split; [lia|reflexivity]|].
    destruct (IH i Hx Hp) as [k [Hk ->]]; exists (S k); split; [lia|reflexivity].
Qed.

Lemma find_first_index l :
  find p l =
  match Py.first_index p l with
  | Some k => nth_error l k
  | None => None
  end.
Proof.
  induction l as [|x l IH]; simpl; [reflexivity|].
  destruct (p x); [reflexivity|].
  rewrite IH; destruct (Py.first_index p l); reflexivity.
Qed.

End FirstIndex.

Section Slices.
Context {A : Type} (l : list A) (lo hi : nat).

Lemma slice_nth k :
  k < hi - lo -> nth_error (Py.slice l lo hi) k = nth_error l (lo + k).
Proof.
  intros Hk; unfold Py.slice.
  rewrite nth_error_firstn.
  destruct (Nat.ltb_spec k (hi - lo)); [|lia].
  apply nth_error_skipn.
Qed.

Lemma slice_bound k x :
  nth_error (Py.slice l lo hi) k = Some x -> k < hi - lo.
Proof.
  unfold Py.slice; rewrite nth_error_firstn.
  destruct (Nat.ltb_spec k (hi - lo)); [auto | discriminate].
Qed.


End Slices.

(* ===================================================================== *)
(** ** Text and lines *)
(* ===================================================================== *)

Lemma append_empty_r s : s ++ EmptyString = s.
Proof. induction s as [|c s IH]; simpl; [|rewrite IH]; reflexivity. Qed.

Lemma append_assoc s t u : (s ++ t) ++ u = s ++ t ++ u.
Proof. induction s as [|c s IH]; simpl; [|rewrite IH]; reflexivity. Qed.

(** Joining the lines read gives the text back. *)
Lemma join_readlines s : Spec.join (PyStr.readlines s) = s.
Proof.
  induction s as [|c s IH]; simpl; [reflexivity|].
  destruct (Ascii.eqb c PyStr.LF).
  - simpl; fold (Spec.join (PyStr.readlines s)); rewrite IH; reflexivity.
  - destruct (PyStr.readlines s) as [|l ls]; simpl in *; rewrite <- IH; reflexivity.
Qed.

Lemma readlines_complete l rest :
  Spec.complete l -> PyStr.readlines (l ++ rest) = l :: PyStr.readlines rest.
Proof.
  induction l as [|c l IH]; simpl; [intros []|].
  destruct (Ascii.eqb c PyStr.LF).
  - intros ->; reflexivity.
  - intros H; rewrite (IH H); reflexivity.
Qed.

Lemma readlines_partial l : Spec.partial l -> PyStr.readlines l = [l].
Proof.
  induction l as [|c l IH]; simpl; [intros []|].
  intros [-> [->|H]]; [reflexivity|].
  rewrite (IH H); reflexivity.
Qed.

Lemma readlines_file_lines s : Spec.file_lines (PyStr.readlines s).
Proof.
  induction s as [|c s IH]; simpl; [exact I|].
  destruct (Ascii.eqb c PyStr.LF) eqn:Hc.
  - left; split; [simpl; rewrite Hc; reflexivity | exact IH].
  - destruct (PyStr.readlines s) as [|l ls]; simpl.
    + right; simpl; rewrite Hc; auto.
    + destruct IH as [[Hl Hls]|[Hl ->]].
      * left; split; [simpl; rewrite Hc; exact Hl | exact Hls].
      * right; split; [simpl; rewrite Hc; auto | reflexivity].
Qed.

(** Lines of the shape a file has are read back as they were written. *)
Lemma readlines_join ls :
  Spec.file_lines ls -> PyStr.readlines (Spec.join ls) = ls.
Proof.
  induction ls as [|l ls IH]; simpl; [reflexivity|].
  fold (Spec.join ls).
  intros [[Hl Hls]|[Hl ->]].
  - rewrite (readlines_complete _ _ Hl), (IH Hls); reflexivity.
  - simpl; rewrite append_empty_r; apply readlines_partial; exact Hl.
Qed.

Lemma file_lines_filter (f : string -> bool) ls :
  Spec.file_lines ls -> Spec.file_lines (filter f ls).
Proof.
  induction ls as [|l ls IH]; simpl; [auto|].
  intros [[Hl Hls]|[Hl ->]]; destruct (f l); simpl; auto.
Qed.

Lemma readlines_kept sub text :
  PyStr.readlines (Spec.join (Spec.kept sub (PyStr.readlines text)))
  = Spec.kept sub (PyStr.readlines text).
Proof. apply readlines_join, file_lines_filter, readlines_file_lines. Qed.

(** Every string contains the empty string. *)
Lemma contains_empty s : PyStr.contains EmptyString s = true.
Proof. destruct s; reflexivity. Qed.

Lemma readlines_nonempty s : s <> EmptyString -> PyStr.readlines s <> [].
Proof.
  destruct s as [|c s]; [congruence|]; intros _; simpl.
  destruct (Ascii.eqb c PyStr.LF); [discriminate|].
  destruct (PyStr.readlines s); discriminate.
Qed.

Lemma kept_removed_length sub lines :
  length (Spec.kept sub lines) + length (Spec.removed sub lines) = length lines.
Proof.
  unfold Spec.kept, Spec.removed.
  induction lines as [|l ls IH]; simpl; [reflexivity|].
  destruct (PyStr.contains sub l); simpl; lia.
Qed.

Lemma kept_kept sub lines :
  Spec.kept sub (Spec.kept sub lines) = Spec.kept sub lines.
Proof.
  unfold Spec.kept.
  induction lines as [|l ls IH]; simpl; [reflexivity|].
  destruct (PyStr.contains sub l) eqn:Hl; simpl; [exact IH|].
  rewrite Hl; simpl; rewrite IH; reflexivity.
Qed.

Lemma kept_empty lines : Spec.kept EmptyString lines = [].
Proof.
  induction lines as [|l ls IH]; [reflexivity|].
  unfold Spec.kept; simpl; rewrite contains_empty; exact IH.
Qed.

(** A search string that does not end a line is in no line of a file: a
    line feed is the last character of a line, if it is in it at all. *)

Section LineFeeds.

Lemma prefix_app sub : forall s,
  prefix sub s = true -> exists rest, s = sub ++ rest.
Proof.
  induction sub as [|a sub IH]; intros s; [exists s; reflexivity|].
  destruct s as [|b s]; simpl; [discriminate|].
  destruct (ascii_dec a b) as [<-|]; [|discriminate].
  intros H; destruct (IH s H) as [rest ->]; exists rest; reflexivity.
Qed.

(** [sub in s] holds only if [sub] stands somewhere in [s]. *)
Lemma contains_app sub s :
  PyStr.contains sub s = true -> exists before rest, s = before ++ sub ++ rest.
Proof.
  induction s as [|c s IH].
  - cbn [PyStr.contains]; rewrite orb_false_r; intros H.
    destruct (prefix_app sub _ H) as [rest Hrest].
    exists EmptyString, rest; exact Hrest.
  - cbn [PyStr.contains]; intros H; apply orb_true_iff in H.
    destruct H as [H|H].
    + destruct (prefix_app sub _ H) as [rest Hrest].
      exists EmptyString, rest; exact Hrest.
    + destruct (IH H) as [before [rest ->]].
      exists (String c before), rest; reflexivity.
Qed.

(** In a line of a file, nothing follows a line feed. *)
Lemma complete_line_feed l : forall before rest,
  Spec.complete l -> l = before ++ String PyStr.LF rest -> rest = EmptyString.
Proof.
  induction l as [|c l IH]; intros before rest; simpl; [intros []|].
  destruct (Ascii.eqb_spec c PyStr.LF) as [->|Hc].
  - intros ->; destruct before as [|d before]; simpl.
    + intros [= <-]; reflexivity.
    + intros [= _ H]; destruct before; discriminate.
  - intros Hl; destruct before as [|d before]; simpl.
    + intros [= H _]; contradiction.
    + intros [= _ H]; exact (IH before rest Hl H).
Qed.

Lemma partial_line_feed l : forall before rest,
  Spec.partial l -> l <> before ++ String PyStr.LF rest.
Proof.
  induction l as [|c l IH]; intros before rest; simpl; [intros []|].
  intros [Hc Hl]; destruct before as [|d before]; simpl.
  - intros [= -> _]; rewrite Ascii.eqb_refl in Hc; discriminate.
  - intros [= _ H]; destruct Hl as [->|Hl].
    + destruct before; discriminate.
    + exact (IH before rest Hl H).
Qed.

Lemma file_lines_shape ls l :
  Spec.file_lines ls -> In l ls -> Spec.complete l \/ Spec.partial l.
Proof.
  induction ls as [|x ls IH]; simpl; [intros _ []|].
  intros [[Hx Hls]|[Hx ->]] [<-|Hin]; auto.
  destruct Hin.
Qed.

(** A search string that goes on after a line feed is in no line. *)
Lemma contains_across_lines before after text line :
  after <> EmptyString ->
  In line (PyStr.readlines text) ->
  PyStr.contains (before ++ String PyStr.LF after) line = false.
Proof.
  intros Hafter Hin.
  destruct (PyStr.contains _ line) eqn:Hc; [exfalso | reflexivity].
  destruct (contains_app _ _ Hc) as [pre [post Heq]].
  rewrite append_assoc, <- append_assoc in Heq; simpl in Heq.
  destruct (file_lines_shape _ _ (readlines_file_lines text) Hin) as [Hl|Hl].
  - pose proof (complete_line_feed _ _ _ Hl Heq) as H.
    destruct after; [congruence | discriminate].
  - exact (partial_line_feed _ _ _ Hl Heq).
Qed.

End LineFeeds.

Lemma kept_all sub lines :
  (forall line, In line lines -> PyStr.contains sub line = false) ->
  Spec.kept sub lines = lines.
Proof.
  unfold Spec.kept; induction lines as [|l ls IH]; intros H; [reflexivity|].
  simpl; rewrite (H l) by (left; reflexivity); simpl.
  rewrite IH; [reflexivity | intros line Hin; apply H; right; exact Hin].
Qed.

Lemma kept_twice a b lines :
  Spec.kept b (Spec.kept a lines)
  = filter (fun line => negb (PyStr.contains a line)
                        && negb (PyStr.contains b line)) lines.
Proof.
  unfold Spec.kept; induction lines as [|l ls IH]; [reflexivity|].
  simpl; destruct (PyStr.contains a l); simpl; [exact IH|].
  destruct (PyStr.contains b l); simpl; rewrite IH; reflexivity.
Qed.

Lemma kept_swap a b lines :
  Spec.kept b (Spec.kept a lines) = Spec.kept a (Spec.kept b lines).
Proof.
  rewrite !kept_twice; apply filter_ext; intros line; apply andb_comm.
Qed.

(* ===================================================================== *)
(** ** Trimming *)
(* ===================================================================== *)

Section Trimming.

Lemma rstrip_cons c s :
  PyStr.rstrip (String c s) =
  match PyStr.rstrip s with
  | EmptyString => if PyStr.isspace c then EmptyString else String c EmptyString
  | r => String c r
  end.
Proof. reflexivity. Qed.

Lemma lstrip_cons c s :
  PyStr.lstrip (String c s) =
  if PyStr.isspace c then PyStr.lstrip s else String c s.
Proof. reflexivity. Qed.

Lemma rstrip_rstrip s : PyStr.rstrip (PyStr.rstrip s) = PyStr.rstrip s.
Proof.
  induction s as [|c s IH]; [reflexivity|].
  rewrite rstrip_cons.
  destruct (PyStr.rstrip s) as [|d r] eqn:Hr.
  - destruct (PyStr.isspace c) eqn:Hc; [reflexivity|].
    rewrite rstrip_cons; change (PyStr.rstrip EmptyString) with EmptyString.
    rewrite Hc; reflexivity.
  - rewrite rstrip_cons, IH; reflexivity.
Qed.

Lemma lstrip_split s :
  exists lead, s = lead ++ PyStr.lstrip s /\ Spec.blank lead = true.
Proof.
  induction s as [|c s [lead [Hs Hlead]]]; [exists EmptyString; auto|].
  rewrite lstrip_cons; destruct (PyStr.isspace c) eqn:Hc.
  - exists (String c lead); simpl; rewrite Hc, Hlead, <- Hs; auto.
  - exists EmptyString; auto.
Qed.

Lemma lstrip_start s : Spec.starts_with_space (PyStr.lstrip s) = false.
Proof.
  induction s as [|c s IH]; [reflexivity|].
  rewrite lstrip_cons; destruct (PyStr.isspace c) eqn:Hc; [exact IH | exact Hc].
Qed.

Lemma rstrip_split s :
  exists trail, s = PyStr.rstrip s ++ trail /\ Spec.blank trail = true.
Proof.
  induction s as [|c s [trail [Hs Htrail]]]; [exists EmptyString; auto|].
  rewrite rstrip_cons; destruct (PyStr.rstrip s) as [|d r].
  - simpl in Hs; subst trail; destruct (PyStr.isspace c) eqn:Hc.
    + exists (String c s); simpl; rewrite Hc, Htrail; auto.
    + exists s; auto.
  - exists trail; simpl; rewrite Hs at 1; auto.
Qed.

Lemma rstrip_end s : Spec.ends_with_space (PyStr.rstrip s) = false.
Proof.
  induction s as [|c s IH]; [reflexivity|].
  rewrite rstrip_cons; destruct (PyStr.rstrip s) as [|d r].
  - destruct (PyStr.isspace c) eqn:Hc; [reflexivity | simpl; exact Hc].
  - exact IH.
Qed.

Lemma rstrip_start s :
  Spec.starts_with_space s = false ->
  Spec.starts_with_space (PyStr.rstrip s) = false.
Proof.
  destruct s as [|c s]; [reflexivity|]; simpl; intros Hc.
  rewrite rstrip_cons; destruct (PyStr.rstrip s); [rewrite Hc|]; exact Hc.
Qed.

(** What [strip] does: it takes away the whitespace a string begins and
    ends with, and nothing else. *)
Lemma strip_trimmed s : Spec.trimmed s (PyStr.strip s).
Proof.
  unfold Spec.trimmed, PyStr.strip.
  destruct (lstrip_split s) as [lead [Hs Hlead]].
  destruct (rstrip_split (PyStr.lstrip s)) as [trail [Ht Htrail]].
  split; [|split; [apply rstrip_start, lstrip_start | apply rstrip_end]].
  exists lead, trail; split; [|auto].
  rewrite Hs at 1; rewrite Ht at 1; reflexivity.
Qed.

Lemma lstrip_fixed s :
  Spec.starts_with_space s = false -> PyStr.lstrip s = s.
Proof.
  destruct s as [|c s]; [reflexivity|]; simpl; intros Hc.
  rewrite lstrip_cons, Hc; reflexivity.
Qed.

Lemma strip_strip s : PyStr.strip (PyStr.strip s) = PyStr.strip s.
Proof.
  unfold PyStr.strip at 1.
  rewrite lstrip_fixed; [apply rstrip_rstrip|].
  apply rstrip_start, lstrip_start.
Qed.

Lemma qualifying_strip line :
  Spec.qualifying (PyStr.strip line) = Spec.qualifying line.
Proof. unfold Spec.qualifying; rewrite strip_strip; reflexivity. Qed.

End Trimming.

(* ===================================================================== *)
(** ** The runtime *)
(* ===================================================================== *)

Lemma inode_eqb_spec i j : reflect (i = j) (Py.inode_eqb i j).
Proof.
  destruct i as [a], j as [b]; simpl.
  destruct (String.eqb_spec a b) as [->|H]; constructor; congruence.
Qed.

Lemma inode_eqb_refl i : Py.inode_eqb i i = true.
Proof. destruct (inode_eqb_spec i i); congruence. Qed.

Lemma content_text w p t :
  Py.content w p = Some t <-> Py.data w (Py.node w p) = Some (Py.Text t).
Proof.
  unfold Py.content; destruct (Py.data w (Py.node w p)) as [[u|u]|]; split;
    congruence.
Qed.

Lemma open_read_refusal w p :
  Py.open_read p w =
  match Spec.read_refusal w p with
  | Some e => (Py.Raise (Py.OSError e), w)
  | None => (Py.Ok (Py.node w p), w)
  end.
Proof.
  unfold Py.open_read, Spec.read_refusal.
  destruct (Py.deny_read w p); [reflexivity|].
  destruct (Py.data w (Py.node w p)); reflexivity.
Qed.

Lemma read_refusal_none w p text :
  Py.deny_read w p = None -> Py.content w p = Some text ->
  Spec.read_refusal w p = None.
Proof.
  intros Hr Hc; apply content_text in Hc.
  unfold Spec.read_refusal; rewrite Hr, Hc; reflexivity.
Qed.

Lemma read_refusal_none_inv w p :
  Spec.read_refusal w p = None ->
  Py.deny_read w p = None /\ exists d, Py.data w (Py.node w p) = Some d.
Proof.
  unfold Spec.read_refusal.
  destruct (Py.deny_read w p); [discriminate|].
  destruct (Py.data w (Py.node w p)) as [d|]; [|discriminate].
  intros _; split; [reflexivity | exists d; reflexivity].
Qed.

(* ===================================================================== *)
(** ** firstline.py: the Record Locator *)
(* ===================================================================== *)

Section LocatorLoop.
Import Py firstline.

(** One pass through the loop body: a qualifying line is printed, trimmed, and
    ends [main]; any other line changes nothing. *)
Lemma body_spec line w :
  body line w =
  if Spec.qualifying line
  then (Ok Return, put_line w (PyStr.strip line))
  else (Ok Continue, w).
Proof.
  unfold body, Spec.qualifying.
  generalize (PyStr.split (PyStr.strip line)); intros parts.
  destruct (length parts =? 7)%nat eqn:Hlen; cbn [negb andb]; [|reflexivity].
  unfold bind, try_except, getitem.
  destruct (nth_error parts 2) as [field|] eqn:Hf.
  - unfold ret, int; destruct (PyStr.int field) as [n|]; cbn; [|reflexivity].
    destruct (n <? 6)%Z; reflexivity.
  - apply Nat.eqb_eq in Hlen.
    apply nth_error_None in Hf; lia.
Qed.

Lemma malformed_not_qualifying line :
  Spec.malformed line = true -> Spec.qualifying line = false.
Proof.
  unfold Spec.malformed, Spec.qualifying.
  generalize (PyStr.split (PyStr.strip line)); intros parts.
  destruct (length parts =? 7)%nat; cbn [negb andb orb]; [|reflexivity].
  destruct (nth_error parts 2) as [field|]; [|reflexivity].
  destruct (PyStr.int field); [discriminate | reflexivity].
Qed.

Lemma for_lines_find lines w :
  for_lines lines w =
  match find Spec.qualifying lines with
  | Some line => (Ok Return, put_line w (PyStr.strip line))
  | None => (Ok Continue, w)
  end.
Proof.
  induction lines as [|line rest IH]; simpl; [reflexivity|].
  unfold bind; rewrite body_spec.
  destruct (Spec.qualifying line); [reflexivity | exact IH].
Qed.

Lemma for_lines_skip line before after w :
  Spec.qualifying line = false ->
  for_lines (before ++ line :: after) w = for_lines (before ++ after) w.
Proof.
  intros Hq; rewrite !for_lines_find.
  induction before as [|x before IH]; simpl.
  - rewrite Hq; reflexivity.
  - destruct (Spec.qualifying x); [reflexivity | exact IH].
Qed.

End LocatorLoop.

Section Locator.
Import Py firstline.

Variables (prog filename : string) (w : world).

(** What [main] does up to the search for the markers. *)
Lemma main_refused e :
  Spec.read_refusal w filename = Some e ->
  main [prog; filename] w =
  match e with
  | FileNotFoundError => (Raise (SystemExit 1), put_line w (not_found filename))
  | _ => (Raise (OSError e), w)
  end.
Proof.
  intros Href; unfold main; simpl.
  unfold bind at 1; unfold getitem; simpl; unfold ret at 1.
  unfold bind at 1, try_except at 1, bind at 1.
  rewrite open_read_refusal, Href.
  destruct e; reflexivity.
Qed.

(** A file that opens and does not decode: [readlines] raises, and no
    handler of [main] catches the error. *)
Lemma main_garbled t :
  deny_read w filename = None ->
  data w (node w filename) = Some (Garbled t) ->
  main [prog; filename] w = (Raise UnicodeDecodeError, w).
Proof.
  intros Hr Hd; unfold main; simpl.
  unfold bind at 1; unfold getitem; simpl; unfold ret at 1.
  unfold bind at 1, try_except at 1, bind at 1, open_read.
  rewrite Hr, Hd; unfold readlines; rewrite Hd; reflexivity.
Qed.

Variable text : string.
Let lines := PyStr.readlines text.
Hypothesis readable : deny_read w filename = None.
Hypothesis holds : content w filename = Some text.

Lemma main_markers_missing :
  first_index (PyStr.contains START_MARKER) lines = None \/
  first_index (PyStr.contains END_MARKER) lines = None ->
  main [prog; filename] w = (Raise (SystemExit 1), put_line w MARKERS_MISSING).
Proof.
  intros Hm; pose proof (proj1 (content_text _ _ _) holds) as Hdata.
  unfold main; simpl.
  unfold bind at 1; unfold getitem; simpl; unfold ret at 1.
  unfold bind at 1, try_except at 1, bind at 1, open_read.
  rewrite readable, Hdata.
  unfold readlines; rewrite Hdata; fold lines.
  unfold bind at 1, try_except at 1, bind at 1, next_index.
  destruct (first_index (PyStr.contains START_MARKER) lines) as [s|].
  - destruct Hm as [Hm|Hm]; [discriminate|]; rewrite Hm; reflexivity.
  - reflexivity.
Qed.


Variables s e : nat.
Hypothesis start_at : first_index (PyStr.contains START_MARKER) lines = Some s.
Hypothesis end_at : first_index (PyStr.contains END_MARKER) lines = Some e.

(** With both markers found, [main] is the scan of the region followed by
    the report. *)
Lemma main_scans :
  main [prog; filename] w =
  match find Spec.qualifying (slice lines (s + 1) e) with
  | Some line => (Ok tt, put_line w (PyStr.strip line))
  | None => (Ok tt, put_line w NO_LINE)
  end.
Proof.
  pose proof (proj1 (content_text _ _ _) holds) as Hdata.
  unfold main; simpl.
  unfold bind at 1; unfold getitem; simpl; unfold ret at 1.
  unfold bind at 1, try_except at 1, bind at 1, open_read.
  rewrite readable, Hdata.
  unfold readlines; rewrite Hdata; fold lines.
  unfold bind at 1, try_except at 1, bind at 1, next_index.
  rewrite start_at, end_at; unfold ret at 1; unfold bind at 1; unfold ret at 1.
  unfold bind at 1; rewrite for_lines_find.
  destruct (find Spec.qualifying _); reflexivity.
Qed.

Lemma region_nth k x :
  nth_error (slice lines (s + 1) e) k = Some x ->
  s < s + 1 + k < e /\ nth_error lines (s + 1 + k) = Some x.
Proof.
  intros H; pose proof (slice_bound _ _ _ _ _ H) as Hk.
  rewrite slice_nth in H by exact Hk; split; [lia | exact H].
Qed.

Lemma scan_never_fails :
  status (run (main [prog; filename]) w) = 0%Z /\
  traceback (run (main [prog; filename]) w) = None.
Proof.
  unfold run; rewrite main_scans.
  destruct (find Spec.qualifying _); split; reflexivity.
Qed.

(** C1: when a qualifying line lies strictly between the first line with the
    start marker and the first line with the end marker, the Record Locator
    prints the first qualifying line of that region without the whitespace
    it begins and ends with, and nothing else; it exits with status 0, and
    the lines after that one play no part in the scan. *)
Theorem first_qualifying_line_printed i line :
  s < i < e ->
  nth_error lines i = Some line ->
  Spec.qualifying line = true ->
  exists k first,
    s < k <= i /\
    nth_error lines k = Some first /\
    Spec.qualifying first = true /\
    (forall j l, s < j < k -> nth_error lines j = Some l ->
                 Spec.qualifying l = false) /\
    run (main [prog; filename]) w
    = Process 0 (stdout w ++ [PyStr.strip first]) None (content w) /\
    Spec.trimmed first (PyStr.strip first) /\
    (forall rest w',
       for_lines (slice lines (s + 1) k ++ first :: rest) w'
       = (Ok Return, put_line w' (PyStr.strip first))).
Proof.
  intros Hi Hline Hq.
  assert (Hreg : nth_error (slice lines (s + 1) e) (i - (s + 1)) = Some line).
  { rewrite slice_nth by lia.
    replace (s + 1 + (i - (s + 1))) with i by lia; exact Hline. }
  destruct (first_index_le Spec.qualifying _ _ _ Hreg Hq) as [k0 [Hk0 Hfirst]].
  destruct (first_index_sound _ _ _ Hfirst) as [[first [Hnth Hqf]] Hmin].
  destruct (region_nth _ _ Hnth) as [Hk Hnth'].
  exists (s + 1 + k0), first.
  split; [lia|]. split; [exact Hnth'|]. split; [exact Hqf|].
  assert (Hbefore : forall j l, s < j < s + 1 + k0 ->
            nth_error lines j = Some l -> Spec.qualifying l = false).
  { intros j l Hj Hl; apply (Hmin (j - (s + 1))); [lia|].
    rewrite slice_nth by lia.
    replace (s + 1 + (j - (s + 1))) with j by lia; exact Hl. }
  split; [exact Hbefore|]. split; [|split; [apply strip_trimmed|]].
  - unfold run; rewrite main_scans.
    rewrite find_first_index, Hfirst, Hnth; reflexivity.
  - intros rest w'; rewrite for_lines_find, find_first_index.
    assert (Hat : first_index Spec.qualifying
                    (slice lines (s + 1) (s + 1 + k0) ++ first :: rest)
                  = Some (length (slice lines (s + 1) (s + 1 + k0)))).
    { apply first_index_complete; split.
      - exists first; split; [|exact Hqf].
        rewrite nth_error_app2, Nat.sub_diag by lia; reflexivity.
      - intros j y Hj Hy; rewrite nth_error_app1 in Hy by exact Hj.
        pose proof (slice_bound _ _ _ _ _ Hy) as Hb.
        rewrite slice_nth in Hy by exact Hb.
        apply (Hbefore (s + 1 + j)); [lia | exact Hy]. }
    rewrite Hat, nth_error_app2, Nat.sub_diag by lia; reflexivity.
Qed.



End Locator.

Section LocatorErrors.
Import Py firstline.

(** C5: a line whose field count is not seven, or whose third field does not
    parse as an integer, is passed over: the loop body neither prints nor
    raises, the scan goes on as if the line were not there, and a run that
    meets such a line in its region ends with status 0 and no exception. *)
Theorem malformed_line_skipped (line : string) :
  Spec.malformed line = true ->
  (forall w, body line w = (Ok Continue, w)) /\
  (forall before after w,
     for_lines (before ++ line :: after) w = for_lines (before ++ after) w) /\
  (forall (prog filename : string) w text s e,
     deny_read w filename = None ->
     content w filename = Some text ->
     first_index (PyStr.contains START_MARKER) (PyStr.readlines text) = Some s ->
     first_index (PyStr.contains END_MARKER) (PyStr.readlines text) = Some e ->
     In line (slice (PyStr.readlines text) (s + 1) e) ->
     status (run (main [prog; filename]) w) = 0%Z /\
     traceback (run (main [prog; filename]) w) = None).
Proof.
  intros Hbad; pose proof (malformed_not_qualifying line Hbad) as Hq.
  split; [|split].
  - intros w; rewrite body_spec, Hq; reflexivity.
  - intros before after w; apply for_lines_skip; exact Hq.
  - intros prog filename w text s e Hr Hc Hs He _.
    exact (scan_never_fails prog filename w text Hr Hc s e Hs He).
Qed.


End LocatorErrors.

(* ===================================================================== *)
(** ** The Record Locator as a whole *)
(* ===================================================================== *)

Section LocatorOutcome.
Import Py firstline.

Lemma main_wrong_count argv w :
  length argv <> 2 ->
  main argv w = (Raise (SystemExit 1), put_line w USAGE).
Proof.
  intros H; unfold main.
  destruct (Nat.eqb_spec (length argv) 2); [contradiction | reflexivity].
Qed.

Lemma two_arguments (argv : list string) :
  length argv <> 2 \/ exists prog filename, argv = [prog; filename].
Proof.
  destruct argv as [|a [|b [|c l]]]; simpl; try (left; lia).
  right; exists a, b; reflexivity.
Qed.

(** Every run of [main], by cases on the arguments and the file. *)
Lemma main_outcome argv w :
  main argv w =
  match argv with
  | [prog; filename] =>
      match Spec.read_refusal w filename with
      | Some FileNotFoundError =>
          (Raise (SystemExit 1), put_line w (not_found filename))
      | Some e => (Raise (OSError e), w)
      | None =>
          match content w filename with
          | None => (Raise UnicodeDecodeError, w)
          | Some text =>
              match first_index (PyStr.contains START_MARKER)
                                (PyStr.readlines text),
                    first_index (PyStr.contains END_MARKER)
                                (PyStr.readlines text) with
              | Some s, Some e =>
                  match find Spec.qualifying
                             (slice (PyStr.readlines text) (s + 1) e) with
                  | Some line => (Ok tt, put_line w (PyStr.strip line))
                  | None => (Ok tt, put_line w NO_LINE)
                  end
              | _, _ => (Raise (SystemExit 1), put_line w MARKERS_MISSING)
              end
          end
      end
  | _ => (Raise (SystemExit 1), put_line w USAGE)
  end.
Proof.
  destruct (two_arguments argv) as [Hlen|[prog [filename ->]]].
  - rewrite (main_wrong_count argv w Hlen).
    destruct argv as [|a [|b [|c l]]]; simpl in *; try reflexivity; lia.
  - destruct (Spec.read_refusal w filename) as [err|] eqn:Href.
    + rewrite (main_refused prog filename w err Href); destruct err; reflexivity.
    + destruct (read_refusal_none_inv w filename Href) as [Hr [d Hd]].
      destruct (content w filename) as [text|] eqn:Hc.
      * destruct (first_index (PyStr.contains START_MARKER) (PyStr.readlines text))
          as [s|] eqn:Hs.
        -- destruct (first_index (PyStr.contains END_MARKER) (PyStr.readlines text))
             as [e|] eqn:He.
           ++ exact (main_scans prog filename w text Hr Hc s e Hs He).
           ++ apply (main_markers_missing prog filename w text Hr Hc); auto.
        -- apply (main_markers_missing prog filename w text Hr Hc); auto.
      * destruct d as [t|t].
        -- apply content_text in Hd; congruence.
        -- exact (main_garbled prog filename w t Hr Hd).
Qed.

(** X1: with an argument count other than two, the Record Locator prints its
    usage line and exits with status 1 before it looks at any file. *)
Theorem locator_usage_error (argv : list string) w :
  length argv <> 2 ->
  run (main argv) w = Process 1 (stdout w ++ [USAGE]) None (content w).
Proof.
  intros H; unfold run; rewrite (main_wrong_count argv w H); reflexivity.
Qed.

(** X2: the Record Locator only reads: whatever its arguments and whatever
    the files hold, every file is afterwards as it was, and the exit status
    is 0 or 1. *)
Theorem locator_changes_no_file (argv : list string) w :
  disk (run (main argv) w) = content w /\
  (status (run (main argv) w) = 0%Z \/ status (run (main argv) w) = 1%Z).
Proof.
  unfold run; rewrite main_outcome.
  destruct argv as [|a [|b [|c l]]]; try (split; [reflexivity | right; reflexivity]).
  destruct (Spec.read_refusal w b) as [[| | |n]|];
    try (split; [reflexivity | right; reflexivity]).
  destruct (content w b) as [text|]; [|split; [reflexivity | right; reflexivity]].
  destruct (first_index (PyStr.contains START_MARKER) _);
    [|split; [reflexivity | right; reflexivity]].
  destruct (first_index (PyStr.contains END_MARKER) _);
    [|split; [reflexivity | right; reflexivity]].
  destruct (find Spec.qualifying _); split; try reflexivity; left; reflexivity.
Qed.

(** X3: the Record Locator exits with status 0 exactly when it has two
    arguments, the file opens and decodes, and a line with each marker
    exists; whether a qualifying line is found does not change the
    status. *)
Theorem locator_succeeds_iff (argv : list string) w :
  status (run (main argv) w) = 0%Z <->
  exists prog filename text s e,
    argv = [prog; filename] /\
    Spec.read_refusal w filename = None /\
    content w filename = Some text /\
    first_index (PyStr.contains START_MARKER) (PyStr.readlines text) = Some s /\
    first_index (PyStr.contains END_MARKER) (PyStr.readlines text) = Some e.
Proof.
  unfold run; rewrite main_outcome; split.
  - destruct argv as [|a [|b [|c l]]];
      try (intros H; simpl in H; discriminate H).
    destruct (Spec.read_refusal w b) as [[| | |n]|] eqn:Href;
      try (intros H; simpl in H; discriminate H).
    destruct (content w b) as [text|] eqn:Hc;
      [|intros H; simpl in H; discriminate H].
    destruct (first_index (PyStr.contains START_MARKER) _) as [s|] eqn:Hs;
      [|intros H; simpl in H; discriminate H].
    destruct (first_index (PyStr.contains END_MARKER) _) as [e|] eqn:He;
      [|intros H; simpl in H; discriminate H].
    intros _; exists a, b, text, s, e; repeat split; assumption.
  - intros [prog [filename [text [s [e [-> [Href [Hc [Hs He]]]]]]]]].
    rewrite Href, Hc, Hs, He.
    destruct (find Spec.qualifying _); reflexivity.
Qed.


(** X5: only the lines strictly between the two markers count: two files
    whose regions hold the same lines make the Record Locator print the same
    line, whatever stands before the start marker and from the end marker
    on. *)
Theorem locator_reads_region_only
        (prog1 file1 prog2 file2 : string) w1 w2 text1 text2 s1 e1 s2 e2 :
  deny_read w1 file1 = None -> content w1 file1 = Some text1 ->
  deny_read w2 file2 = None -> content w2 file2 = Some text2 ->
  first_index (PyStr.contains START_MARKER) (PyStr.readlines text1) = Some s1 ->
  first_index (PyStr.contains END_MARKER) (PyStr.readlines text1) = Some e1 ->
  first_index (PyStr.contains START_MARKER) (PyStr.readlines text2) = Some s2 ->
  first_index (PyStr.contains END_MARKER) (PyStr.readlines text2) = Some e2 ->
  slice (PyStr.readlines text1) (s1 + 1) e1
  = slice (PyStr.readlines text2) (s2 + 1) e2 ->
  exists m,
    printed (run (main [prog1; file1]) w1) = (stdout w1 ++ [m])%list /\
    printed (run (main [prog2; file2]) w2) = (stdout w2 ++ [m])%list.
Proof.
  intros Hr1 Hc1 Hr2 Hc2 Hs1 He1 Hs2 He2 Hsame.
  unfold run.
  rewrite (main_scans prog1 file1 w1 text1 Hr1 Hc1 s1 e1 Hs1 He1).
  rewrite (main_scans prog2 file2 w2 text2 Hr2 Hc2 s2 e2 Hs2 He2).
  rewrite Hsame.
  destruct (find Spec.qualifying _); eexists; split; reflexivity.
Qed.

(** X6: with both markers found, what the Record Locator prints is either
    the negative-result message, and then no line of the region qualifies,
    or a line of the region without the whitespace it begins and ends with,
    and that text is itself a qualifying record which trimming leaves as it
    is.  The message is no qualifying record, so the two cases cannot be
    confused. *)
Theorem locator_prints_a_record (prog filename : string) w text s e :
  deny_read w filename = None ->
  content w filename = Some text ->
  first_index (PyStr.contains START_MARKER) (PyStr.readlines text) = Some s ->
  first_index (PyStr.contains END_MARKER) (PyStr.readlines text) = Some e ->
  Spec.qualifying NO_LINE = false /\
  exists m,
    printed (run (main [prog; filename]) w) = (stdout w ++ [m])%list /\
    ((m = NO_LINE /\
      forall line, In line (slice (PyStr.readlines text) (s + 1) e) ->
                   Spec.qualifying line = false) \/
     (Spec.qualifying m = true /\
      PyStr.strip m = m /\
      exists line, In line (slice (PyStr.readlines text) (s + 1) e) /\
                   Spec.qualifying line = true /\
                   m = PyStr.strip line /\
                   Spec.trimmed line m)).
Proof.
  intros Hr Hc Hs He; split; [vm_compute; reflexivity|].
  unfold run; rewrite (main_scans prog filename w text Hr Hc s e Hs He).
  destruct (find Spec.qualifying _) as [line|] eqn:Hfind.
  - exists (PyStr.strip line); split; [reflexivity|]; right.
    destruct (find_some _ _ Hfind) as [Hin Hq].
    split; [rewrite qualifying_strip; exact Hq|].
    split; [apply strip_strip|].
    exists line; split; [exact Hin|]; split; [exact Hq|].
    split; [reflexivity | apply strip_trimmed].
  - exists NO_LINE; split; [reflexivity|]; left.
    split; [reflexivity|].
    intros line Hin; exact (find_none _ _ Hfind line Hin).
Qed.

(** X7: the threshold is strict: a well-formed record whose third field is an
    integer of 6 or more is passed over like a malformed line, without
    output, and the scan is the scan without it. *)
Theorem slow_record_skipped (line field : string) (n : Z) :
  length (PyStr.split (PyStr.strip line)) = 7 ->
  nth_error (PyStr.split (PyStr.strip line)) 2 = Some field ->
  PyStr.int field = Some n ->
  (6 <= n)%Z ->
  (forall w, body line w = (Ok Continue, w)) /\
  (forall before after w,
     for_lines (before ++ line :: after) w = for_lines (before ++ after) w).
Proof.
  intros Hlen Hfield Hint Hn.
  assert (Hq : Spec.qualifying line = false).
  { unfold Spec.qualifying; rewrite Hlen, Hfield, Hint; simpl.
    apply Z.ltb_ge; exact Hn. }
  split.
  - intros w; rewrite body_spec, Hq; reflexivity.
  - intros before after w; apply for_lines_skip; exact Hq.
Qed.

End LocatorOutcome.

(* ===================================================================== *)
(** ** remove_lines.py: the Substring Filter *)
(* ===================================================================== *)

Section FilterCalls.
Import Py remove_lines.

(** The loop appends the kept lines, in order, to the output. *)
Lemma copy_lines_writes sub f lines : forall w t,
  data w f = Some (Text t) ->
  write_fault w f = None ->
  exists w', copy_lines sub f lines w = (Ok tt, w') /\
             Spec.extends w w' f (t ++ Spec.join (Spec.kept sub lines)) /\
             stdout w' = stdout w.
Proof.
  induction lines as [|line rest IH]; intros w t Hf Hw; simpl.
  - exists w; split; [reflexivity|].
    rewrite append_empty_r; repeat split; auto.
  - unfold bind.
    destruct (PyStr.contains sub line) eqn:Hl; simpl.
    + apply IH; assumption.
    + unfold write; rewrite Hw; fold (Spec.join (Spec.kept sub rest)).
      assert (Hf1 : data (set_data w f (Text (text_of w f ++ line))) f
                    = Some (Text (t ++ line))).
      { unfold set_data, text_of; simpl.
        rewrite inode_eqb_refl, Hf; reflexivity. }
      destruct (IH _ _ Hf1 Hw)
        as [w' [Hrun [[Hnew [Hothers [Hn [Hr [Hd Hwf]]]]] Ho]]].
      exists w'; split; [exact Hrun|].
      repeat split; auto.
      * rewrite Hnew, append_assoc; reflexivity.
      * intros j Hj; rewrite (Hothers j Hj); simpl.
        destruct (inode_eqb_spec j f); [contradiction | reflexivity].
Qed.

(** A write that fails ends the loop at the first line kept. *)
Lemma copy_lines_fails sub f lines e : forall w,
  write_fault w f = Some e ->
  copy_lines sub f lines w =
  match Spec.kept sub lines with
  | [] => (Ok tt, w)
  | _ :: _ => (Raise (OSError e), w)
  end.
Proof.
  induction lines as [|line rest IH]; intros w Hw; simpl; [reflexivity|].
  unfold bind, Spec.kept; simpl.
  destruct (PyStr.contains sub line); simpl.
  - apply IH; exact Hw.
  - unfold write; rewrite Hw; reflexivity.
Qed.

Lemma iterate_spec f w :
  iterate f w =
  (Ok (PyStr.readlines (text_of w f),
       match data w f with
       | Some (Garbled _) => Some UnicodeDecodeError
       | _ => None
       end), w).
Proof.
  unfold iterate, text_of; destruct (data w f) as [[t|t]|]; reflexivity.
Qed.

Lemma emptied_extends w out :
  Spec.extends w (Spec.emptied w out) (node w out) EmptyString.
Proof.
  unfold Spec.extends, Spec.emptied; simpl.
  rewrite inode_eqb_refl; repeat split; auto.
  intros j Hj; destruct (inode_eqb_spec j (node w out));
    [contradiction | reflexivity].
Qed.

Variables (inp sub out : string) (w : world).

Lemma remove_lines_refused_read e :
  Spec.read_refusal w inp = Some e ->
  remove_lines inp sub out w = (Raise (OSError e), w).
Proof.
  intros H; unfold remove_lines, bind; rewrite open_read_refusal, H; reflexivity.
Qed.

Lemma remove_lines_refused_write e :
  Spec.read_refusal w inp = None ->
  deny_write w out = Some e ->
  remove_lines inp sub out w = (Raise (OSError e), w).
Proof.
  intros Hr Hw; unfold remove_lines, bind at 1; rewrite open_read_refusal, Hr.
  unfold bind at 1, open_write; rewrite Hw; reflexivity.
Qed.

(** Both files open: what the loop leaves behind and how it ends. *)
Lemma remove_lines_opened :
  Spec.read_refusal w inp = None ->
  deny_write w out = None ->
  exists w',
    remove_lines inp sub out w =
    (match Spec.loop_error w inp sub out with
     | Some e => Raise e
     | None => Ok tt
     end, w') /\
    Spec.extends w w' (node w out) (Spec.written w inp sub out) /\
    stdout w' = stdout w.
Proof.
  intros Hr Hw.
  unfold remove_lines, bind at 1; rewrite open_read_refusal, Hr.
  unfold bind at 1, open_write; rewrite Hw.
  fold (Spec.emptied w out).
  unfold bind at 1; rewrite iterate_spec.
  fold (Spec.source_lines w inp out).
  unfold Spec.loop_error, Spec.written, Spec.source_garbled.
  pose proof (emptied_extends w out) as Hemp.
  destruct (write_fault w (node w out)) as [e|] eqn:Hwf.
  - unfold bind at 1.
    rewrite (copy_lines_fails sub (node w out) _ e (Spec.emptied w out))
      by exact Hwf.
    destruct (Spec.kept sub (Spec.source_lines w inp out)).
    + exists (Spec.emptied w out); split; [|split; [exact Hemp | reflexivity]].
      destruct (data (Spec.emptied w out) (node w inp)) as [[t|t]|];
        reflexivity.
    + exists (Spec.emptied w out); split; [reflexivity|].
      split; [exact Hemp | reflexivity].
  - destruct (copy_lines_writes sub (node w out)
                (Spec.source_lines w inp out) (Spec.emptied w out) EmptyString)
      as [w' [Hrun [[Hnew [Hothers [Hn [Hdr [Hdw Hwf']]]]] Ho]]].
    { unfold Spec.emptied, set_data; simpl; rewrite inode_eqb_refl; reflexivity. }
    { exact Hwf. }
    exists w'; unfold bind at 1; rewrite Hrun.
    destruct Hemp as [_ [Hothers0 _]].
    split; [|split; [|exact Ho]].
    + destruct (Spec.kept sub (Spec.source_lines w inp out));
        destruct (data (Spec.emptied w out) (node w inp)) as [[t|t]|];
        reflexivity.
    + repeat split; auto.
      intros j Hj; rewrite (Hothers j Hj); exact (Hothers0 j Hj).
Qed.

Lemma main_four prog :
  main [prog; inp; sub; out] w =
  (remove_lines inp sub out ;; print (done sub out)) w.
Proof. reflexivity. Qed.

Lemma main_usage argv :
  length argv <> 4 ->
  main argv w = (Raise (SystemExit 1), put_line w USAGE).
Proof.
  intros H; unfold main.
  destruct (Nat.eqb_spec (length argv) 4); [contradiction | reflexivity].
Qed.

(** Both files open: the run of [main]. *)
Lemma main_opened prog :
  Spec.read_refusal w inp = None ->
  deny_write w out = None ->
  exists w',
    main [prog; inp; sub; out] w =
    match Spec.loop_error w inp sub out with
    | Some e => (Raise e, w')
    | None => (Ok tt, put_line w' (done sub out))
    end /\
    Spec.extends w w' (node w out) (Spec.written w inp sub out) /\
    stdout w' = stdout w.
Proof.
  intros Hr Hw.
  destruct (remove_lines_opened Hr Hw) as [w' [Hrun Hrest]].
  exists w'; split; [|exact Hrest].
  rewrite main_four; unfold bind; rewrite Hrun.
  destruct (Spec.loop_error w inp sub out); reflexivity.
Qed.

(** What stands at the destination after such a run, however it ends. *)
Lemma disk_opened prog :
  Spec.read_refusal w inp = None ->
  deny_write w out = None ->
  disk (run (main [prog; inp; sub; out]) w) out
  = Some (Spec.written w inp sub out).
Proof.
  intros Hr Hw.
  destruct (main_opened prog Hr Hw) as [w' [Hrun [[Hnew [_ [Hn _]]] _]]].
  unfold run; rewrite Hrun.
  assert (Hc : content w' out = Some (Spec.written w inp sub out))
    by (apply content_text; rewrite Hn; exact Hnew).
  destruct (Spec.loop_error w inp sub out) as [[]|]; exact Hc.
Qed.

(** The lines read and the end of the loop, by cases on the two paths. *)
Lemma source_lines_distinct text :
  ~ Spec.same_file w inp out ->
  content w inp = Some text ->
  Spec.source_lines w inp out = PyStr.readlines text /\
  Spec.source_garbled w inp out = false.
Proof.
  intros Hd Hc; apply content_text in Hc.
  unfold Spec.source_lines, Spec.source_garbled, text_of, Spec.emptied; simpl.
  destruct (inode_eqb_spec (node w inp) (node w out)); [contradiction|].
  rewrite Hc; auto.
Qed.

Lemma source_lines_same :
  Spec.same_file w inp out ->
  Spec.source_lines w inp out = [] /\
  Spec.source_garbled w inp out = false.
Proof.
  intros Hs.
  unfold Spec.source_lines, Spec.source_garbled, text_of, Spec.emptied; simpl.
  rewrite Hs, inode_eqb_refl; auto.
Qed.

Lemma same_file_dec : Spec.same_file w inp out \/ ~ Spec.same_file w inp out.
Proof.
  unfold Spec.same_file.
  destruct (inode_eqb_spec (node w inp) (node w out)); auto.
Qed.

(** A source that decodes makes a loop that does not end with the decoder's
    error. *)
Lemma source_decodes text :
  content w inp = Some text -> Spec.source_garbled w inp out = false.
Proof.
  intros Hc; destruct same_file_dec as [Hs|Hd].
  - exact (proj2 (source_lines_same Hs)).
  - exact (proj2 (source_lines_distinct text Hd Hc)).
Qed.

(** The good case: distinct files, a source that decodes, a destination
    that takes what is written. *)
Lemma main_distinct prog text :
  ~ Spec.same_file w inp out ->
  deny_read w inp = None ->
  content w inp = Some text ->
  deny_write w out = None ->
  write_fault w (node w out) = None ->
  exists w',
    main [prog; inp; sub; out] w = (Ok tt, put_line w' (done sub out)) /\
    Spec.extends w w' (node w out)
      (Spec.join (Spec.kept sub (PyStr.readlines text))) /\
    stdout w' = stdout w.
Proof.
  intros Hd Hr Hc Hw Hwf.
  destruct (main_opened prog (read_refusal_none w inp text Hr Hc) Hw)
    as [w' [Hrun Hrest]].
  destruct (source_lines_distinct text Hd Hc) as [Hlines Hg].
  unfold Spec.loop_error, Spec.written in *.
  rewrite Hwf, Hlines, Hg in *.
  exists w'; split; [|exact Hrest].
  rewrite Hrun; destruct (Spec.kept sub (PyStr.readlines text)); reflexivity.
Qed.

End FilterCalls.

Section FilterRuns.
Import Py remove_lines.

Lemma extends_content w w' f new q :
  Spec.extends w w' f new -> node w q <> f -> content w' q = content w q.
Proof.
  intros [_ [Hothers [Hn _]]] Hq; unfold content.
  rewrite Hn, (Hothers _ Hq); reflexivity.
Qed.

Lemma loop_error_cases w (inp sub out : string) :
  Spec.loop_error w inp sub out = None \/
  Spec.loop_error w inp sub out = Some UnicodeDecodeError \/
  exists e, Spec.loop_error w inp sub out = Some (OSError e).
Proof.
  unfold Spec.loop_error.
  destruct (write_fault w (node w out)) as [e|];
    destruct (Spec.kept sub (Spec.source_lines w inp out));
    destruct (Spec.source_garbled w inp out); eauto.
Qed.

(** Both files open: how the process ends. *)
Lemma run_opened (prog inp sub out : string) w :
  Spec.read_refusal w inp = None ->
  deny_write w out = None ->
  traceback (run (main [prog; inp; sub; out]) w) = Spec.loop_error w inp sub out /\
  status (run (main [prog; inp; sub; out]) w)
  = match Spec.loop_error w inp sub out with Some _ => 1%Z | None => 0%Z end /\
  printed (run (main [prog; inp; sub; out]) w)
  = match Spec.loop_error w inp sub out with
    | Some _ => stdout w
    | None => (stdout w ++ [done sub out])%list
    end.
Proof.
  intros Hr Hw.
  destruct (main_opened inp sub out w prog Hr Hw) as [w' [Hrun [_ Ho]]].
  unfold run; rewrite Hrun.
  destruct (loop_error_cases w inp sub out) as [->|[->|[e ->]]]; simpl;
    rewrite Ho; auto.
Qed.

(** The world after such a run. *)
Lemma after_opened (prog inp sub out : string) w :
  Spec.read_refusal w inp = None ->
  deny_write w out = None ->
  Spec.extends w (Spec.after (main [prog; inp; sub; out]) w) (node w out)
    (Spec.written w inp sub out).
Proof.
  intros Hr Hw.
  destruct (main_opened inp sub out w prog Hr Hw) as [w' [Hrun [Hext _]]].
  unfold Spec.after; rewrite Hrun.
  destruct (Spec.loop_error w inp sub out); exact Hext.
Qed.

(** What a second run writes, reading what the first one wrote to [mid]. *)
Lemma written_after w wa (mid b out : string) t :
  Spec.extends w wa (node w mid) t ->
  Spec.written wa mid b out =
  match write_fault w (node w out) with
  | Some _ => EmptyString
  | None =>
      Spec.join (Spec.kept b (PyStr.readlines
        (if inode_eqb (node w mid) (node w out) then EmptyString else t)))
  end.
Proof.
  intros [Hnew [_ [Hn [_ [_ Hwf]]]]].
  unfold Spec.written, Spec.source_lines, Spec.emptied, text_of; simpl.
  rewrite Hn, Hwf.
  destruct (write_fault w (node w out)); [reflexivity|].
  destruct (inode_eqb (node w mid) (node w out)); [reflexivity|].
  rewrite Hnew; reflexivity.
Qed.

(** Two runs in a row, the second on the output of the first. *)
Lemma two_runs (prog inp a mid b out : string) w :
  Spec.read_refusal w inp = None ->
  deny_write w mid = None ->
  deny_read w mid = None ->
  deny_write w out = None ->
  disk (run (main [prog; mid; b; out])
            (Spec.after (main [prog; inp; a; mid]) w)) out
  = Some match write_fault w (node w out) with
         | Some _ => EmptyString
         | None =>
             Spec.join (Spec.kept b (PyStr.readlines
               (if inode_eqb (node w mid) (node w out) then EmptyString
                else Spec.written w inp a mid)))
         end.
Proof.
  intros Hr Hw Hr' Hw'.
  pose proof (after_opened prog inp a mid w Hr Hw) as Hext.
  set (wa := Spec.after (main [prog; inp; a; mid]) w) in *.
  assert (Hra : Spec.read_refusal wa mid = None).
  { destruct Hext as [Hnew [_ [Hn [Hdr _]]]].
    unfold Spec.read_refusal; rewrite Hdr, Hr', Hn, Hnew; reflexivity. }
  assert (Hwa : deny_write wa out = None).
  { destruct Hext as [_ [_ [_ [_ [Hdw _]]]]]; rewrite Hdw; exact Hw'. }
  rewrite (disk_opened mid b out wa prog Hra Hwa).
  rewrite (written_after w wa mid b out _ Hext); reflexivity.
Qed.

Lemma written_swap w (inp a mid b : string) :
  Spec.join (Spec.kept b (PyStr.readlines (Spec.written w inp a mid)))
  = Spec.join (Spec.kept a (PyStr.readlines (Spec.written w inp b mid))).
Proof.
  unfold Spec.written, Spec.source_lines.
  destruct (write_fault w (node w mid)); [reflexivity|].
  rewrite !readlines_kept, kept_swap; reflexivity.
Qed.

(** C2: with a destination that is a file other than the source, the output
    file holds exactly the input lines that do not contain the search
    string, in their order and unchanged; read back, it yields those lines;
    kept and removed lines together are as many as the input lines.  The
    input is left as it was. *)
Theorem filter_keeps_other_lines (prog inp sub out : string) w text :
  ~ Spec.same_file w inp out ->
  deny_read w inp = None ->
  content w inp = Some text ->
  deny_write w out = None ->
  write_fault w (node w out) = None ->
  let lines := PyStr.readlines text in
  let p := run (main [prog; inp; sub; out]) w in
  disk p out = Some (Spec.join (Spec.kept sub lines)) /\
  PyStr.readlines (Spec.join (Spec.kept sub lines)) = Spec.kept sub lines /\
  length (Spec.kept sub lines) + length (Spec.removed sub lines) = length lines /\
  disk p inp = Some text /\
  status p = 0%Z /\
  traceback p = None.
Proof.
  intros Hd Hr Hc Hw Hwf lines p.
  destruct (main_distinct inp sub out w prog text Hd Hr Hc Hw Hwf)
    as [w' [Hrun [Hext _]]].
  assert (Hp : p = Process 0 (stdout w' ++ [done sub out]) None (content w')).
  { unfold p, run; rewrite Hrun; reflexivity. }
  rewrite Hp; simpl.
  split; [apply content_text; destruct Hext as [Hnew [_ [-> _]]]; exact Hnew|].
  split; [apply readlines_kept|].
  split; [apply kept_removed_length|].
  split; [rewrite (extends_content _ _ _ _ inp Hext Hd); exact Hc|].
  split; reflexivity.
Qed.


(** C8: with the empty search string and an input that is not empty, every
    line contains the search string, the output file is created empty, and
    the run ends normally, with status 0. *)
Theorem empty_substring_removes_all (prog inp out : string) w text :
  text <> EmptyString ->
  deny_read w inp = None ->
  content w inp = Some text ->
  deny_write w out = None ->
  let lines := PyStr.readlines text in
  let p := run (main [prog; inp; EmptyString; out]) w in
  lines <> [] /\
  (forall line, In line lines -> PyStr.contains EmptyString line = true) /\
  disk p out = Some EmptyString /\
  status p = 0%Z /\
  traceback p = None.
Proof.
  intros Hne Hr Hc Hw lines p.
  pose proof (read_refusal_none w inp text Hr Hc) as Href.
  destruct (run_opened prog inp EmptyString out w Href Hw) as [Ht [Hs _]].
  pose proof (disk_opened inp EmptyString out w prog Href Hw) as Hd.
  fold p in Ht, Hs, Hd.
  assert (Herr : Spec.loop_error w inp EmptyString out = None).
  { unfold Spec.loop_error.
    rewrite kept_empty, (source_decodes inp out w text Hc).
    destruct (write_fault w (node w out)); reflexivity. }
  assert (Hwr : Spec.written w inp EmptyString out = EmptyString).
  { unfold Spec.written; rewrite kept_empty.
    destruct (write_fault w (node w out)); reflexivity. }
  split; [apply readlines_nonempty; exact Hne|].
  split; [intros line _; apply contains_empty|].
  rewrite Hd, Hs, Ht, Herr, Hwr; auto.
Qed.

(** C9: filtering the output of a run again, with the same search string and
    onto a third file, removes nothing: the second output has the text of
    the first, which is left as it was. *)
Theorem filter_idempotent (prog inp sub out again : string) w text :
  ~ Spec.same_file w inp out ->
  ~ Spec.same_file w out again ->
  deny_read w inp = None ->
  content w inp = Some text ->
  deny_write w out = None ->
  write_fault w (node w out) = None ->
  deny_read w out = None ->
  deny_write w again = None ->
  write_fault w (node w again) = None ->
  let first := Spec.after (main [prog; inp; sub; out]) w in
  let p := run (main [prog; out; sub; again]) first in
  Spec.kept sub (Spec.kept sub (PyStr.readlines text))
  = Spec.kept sub (PyStr.readlines text) /\
  content first out = Some (Spec.join (Spec.kept sub (PyStr.readlines text))) /\
  disk p again = content first out /\
  disk p out = content first out /\
  status p = 0%Z.
Proof.
  intros Hd Hd' Hr Hc Hw Hwf Hr' Hw' Hwf' first p.
  destruct (main_distinct inp sub out w prog text Hd Hr Hc Hw Hwf)
    as [w1 [Hrun [Hext _]]].
  assert (Hfirst : first = put_line w1 (done sub out)).
  { unfold first, Spec.after; rewrite Hrun; reflexivity. }
  pose proof Hext as [Hnew [_ [Hn [Hdr [Hdw Hwf1]]]]].
  assert (Hout1 : content first out
                  = Some (Spec.join (Spec.kept sub (PyStr.readlines text)))).
  { rewrite Hfirst; apply content_text; simpl; rewrite Hn; exact Hnew. }
  assert (Hsame : ~ Spec.same_file first out again).
  { rewrite Hfirst; unfold Spec.same_file; simpl; rewrite Hn; exact Hd'. }
  assert (Hr1 : deny_read first out = None)
    by (rewrite Hfirst; simpl; rewrite Hdr; exact Hr').
  assert (Hw1 : deny_write first again = None)
    by (rewrite Hfirst; simpl; rewrite Hdw; exact Hw').
  assert (Hwf2 : write_fault first (node first again) = None)
    by (rewrite Hfirst; simpl; rewrite Hwf1, Hn; exact Hwf').
  destruct (main_distinct out sub again first prog _ Hsame Hr1 Hout1 Hw1 Hwf2)
    as [w2 [Hrun2 [Hext2 _]]].
  assert (Hp : p = Process 0 (stdout w2 ++ [done sub again]) None (content w2)).
  { unfold p, run; rewrite Hrun2; reflexivity. }
  split; [apply kept_kept|]. split; [exact Hout1|].
  rewrite Hp; simpl; rewrite Hout1.
  split; [|split; [|reflexivity]].
  - apply content_text; destruct Hext2 as [Hnew2 [_ [-> _]]].
    rewrite Hnew2, readlines_kept, kept_kept; reflexivity.
  - rewrite (extends_content _ _ _ _ out Hext2 Hsame); exact Hout1.
Qed.

End FilterRuns.

Section FilterProperties.
Import Py remove_lines.

(** X8: filtering a file onto itself loses it: the output is emptied before
    the first line of the input is read, so the file ends up empty whatever
    it held and whatever the search string; the run still ends with status 0
    and the confirmation. *)
Theorem filter_in_place_empties_file (prog name sub : string) w :
  Spec.read_refusal w name = None ->
  deny_write w name = None ->
  disk (run (main [prog; name; sub; name]) w) name = Some EmptyString /\
  status (run (main [prog; name; sub; name]) w) = 0%Z /\
  printed (run (main [prog; name; sub; name]) w)
  = (stdout w ++ [done sub name])%list.
Proof.
  intros Hr Hw.
  destruct (run_opened prog name sub name w Hr Hw) as [_ [Hs Hpr]].
  rewrite (disk_opened name sub name w prog Hr Hw), Hs, Hpr.
  destruct (source_lines_same name name w eq_refl) as [Hlines Hg].
  unfold Spec.written, Spec.loop_error; rewrite Hlines, Hg; simpl.
  destruct (write_fault w (node w name)); auto.
Qed.

(** X9: the Substring Filter changes the file its fourth argument leads to
    and no other: at every path that leads to another file, the input's
    included, the text is afterwards what it was, in failing runs as in
    successful ones. *)
Theorem filter_touches_only_destination (argv : list string) w (q : string) :
  (forall out, nth_error argv 3 = Some out -> ~ Spec.same_file w q out) ->
  disk (run (main argv) w) q = content w q.
Proof.
  intros Hq.
  assert (Hlen : length argv <> 4 \/
                 exists prog inp sub out, argv = [prog; inp; sub; out]).
  { destruct argv as [|a [|b [|c [|d [|x l]]]]]; simpl;
      try (left; lia). right; exists a, b, c, d; reflexivity. }
  destruct Hlen as [Hlen|[prog [inp [sub [out ->]]]]].
  - unfold run; rewrite (main_usage w argv Hlen); reflexivity.
  - pose proof (Hq out eq_refl) as Hne.
    destruct (Spec.read_refusal w inp) as [e|] eqn:Href.
    + unfold run; rewrite main_four; unfold bind.
      rewrite (remove_lines_refused_read inp sub out w e Href); reflexivity.
    + destruct (deny_write w out) as [e|] eqn:Hw.
      * unfold run; rewrite main_four; unfold bind.
        rewrite (remove_lines_refused_write inp sub out w e Href Hw); reflexivity.
      * destruct (main_opened inp sub out w prog Href Hw)
          as [w' [Hrun [Hext _]]].
        unfold run; rewrite Hrun.
        pose proof (extends_content _ _ _ _ q Hext Hne) as Hc.
        destruct (Spec.loop_error w inp sub out) as [[]|]; exact Hc.
Qed.

(** X10: when the source opens and decodes and the destination opens and
    takes what is written, the Substring Filter ends with status 0, the
    destination exists afterwards, and the one call of [print] gives the
    confirmation naming the search string and the destination. *)
Theorem filter_success_report (prog inp sub out : string) w text :
  deny_read w inp = None ->
  content w inp = Some text ->
  deny_write w out = None ->
  write_fault w (node w out) = None ->
  status (run (main [prog; inp; sub; out]) w) = 0%Z /\
  traceback (run (main [prog; inp; sub; out]) w) = None /\
  printed (run (main [prog; inp; sub; out]) w)
  = (stdout w ++ [done sub out])%list /\
  disk (run (main [prog; inp; sub; out]) w) out <> None.
Proof.
  intros Hr Hc Hw Hwf.
  pose proof (read_refusal_none w inp text Hr Hc) as Href.
  destruct (run_opened prog inp sub out w Href Hw) as [Ht [Hs Hpr]].
  rewrite (disk_opened inp sub out w prog Href Hw), Hs, Hpr, Ht.
  unfold Spec.loop_error.
  rewrite Hwf, (source_decodes inp out w text Hc).
  repeat split; try discriminate.
  all: destruct (Spec.kept sub (Spec.source_lines w inp out)); reflexivity.
Qed.

(** X11: when no line of the input contains the search string, the text
    written to a destination other than the source is the text read, a last
    line without line feed included. *)
Theorem filter_copies_when_nothing_matches (prog inp sub out : string) w text :
  ~ Spec.same_file w inp out ->
  deny_read w inp = None ->
  content w inp = Some text ->
  deny_write w out = None ->
  write_fault w (node w out) = None ->
  (forall line, In line (PyStr.readlines text) ->
                PyStr.contains sub line = false) ->
  disk (run (main [prog; inp; sub; out]) w) out = Some text.
Proof.
  intros Hd Hr Hc Hw Hwf Hnone.
  rewrite (disk_opened inp sub out w prog (read_refusal_none w inp text Hr Hc) Hw).
  unfold Spec.written.
  rewrite Hwf, (proj1 (source_lines_distinct inp out w text Hd Hc)).
  rewrite (kept_all sub _ Hnone), join_readlines; reflexivity.
Qed.

(** X12: no line of the output file contains the search string. *)
Theorem filter_output_free_of_substring (prog inp sub out : string) w text :
  inp <> out ->
  deny_read w inp = None ->
  content w inp = Some text ->
  deny_write w out = None ->
  exists written,
    disk (run (main [prog; inp; sub; out]) w) out = Some written /\
    forall line, In line (PyStr.readlines written) ->
                 PyStr.contains sub line = false.
Proof.
  intros _ Hr Hc Hw.
  exists (Spec.written w inp sub out); split.
  - exact (disk_opened inp sub out w prog (read_refusal_none w inp text Hr Hc) Hw).
  - unfold Spec.written, Spec.source_lines.
    destruct (write_fault w (node w out)); [intros line []|].
    intros line; rewrite readlines_kept; unfold Spec.kept.
    intros Hin; apply filter_In in Hin; destruct Hin as [_ Hk].
    apply negb_true_iff; exact Hk.
Qed.

(** X13: two runs in a row, the second on the output of the first, each onto
    a file other than the one it reads, keep exactly the lines that contain
    neither search string, in their order. *)
Theorem filter_twice_keeps_neither (prog inp a mid b out : string) w text :
  ~ Spec.same_file w inp mid ->
  ~ Spec.same_file w mid out ->
  deny_read w inp = None ->
  content w inp = Some text ->
  deny_write w mid = None ->
  write_fault w (node w mid) = None ->
  deny_read w mid = None ->
  deny_write w out = None ->
  write_fault w (node w out) = None ->
  disk (run (main [prog; mid; b; out])
            (Spec.after (main [prog; inp; a; mid]) w)) out
  = Some (Spec.join
            (filter (fun line => negb (PyStr.contains a line)
                                 && negb (PyStr.contains b line))
                    (PyStr.readlines text))).
Proof.
  intros Hd Hd' Hr Hc Hw Hwf Hr' Hw' Hwf'.
  rewrite (two_runs prog inp a mid b out w
             (read_refusal_none w inp text Hr Hc) Hw Hr' Hw').
  rewrite Hwf'.
  destruct (inode_eqb_spec (node w mid) (node w out)); [contradiction|].
  unfold Spec.written.
  rewrite Hwf, (proj1 (source_lines_distinct inp mid w text Hd Hc)).
  rewrite readlines_kept, kept_twice; reflexivity.
Qed.

(** X14: the order of two filters does not matter: removing the lines with
    one search string and then those with another gives the same file as
    the two runs in the other order. *)
Theorem filters_commute (prog inp a mid b out : string) w text :
  inp <> mid ->
  mid <> out ->
  deny_read w inp = None ->
  content w inp = Some text ->
  deny_write w mid = None ->
  deny_read w mid = None ->
  deny_write w out = None ->
  disk (run (main [prog; mid; b; out])
            (Spec.after (main [prog; inp; a; mid]) w)) out
  = disk (run (main [prog; mid; a; out])
              (Spec.after (main [prog; inp; b; mid]) w)) out.
Proof.
  intros _ _ Hr Hc Hw Hr' Hw'.
  pose proof (read_refusal_none w inp text Hr Hc) as Href.
  rewrite (two_runs prog inp a mid b out w Href Hw Hr' Hw').
  rewrite (two_runs prog inp b mid a out w Href Hw Hr' Hw').
  destruct (write_fault w (node w out)); [reflexivity|].
  destruct (inode_eqb (node w mid) (node w out)); [reflexivity|].
  rewrite written_swap; reflexivity.
Qed.

(** X15: lines are tested one by one, so a search string with text after a
    line feed matches nothing: the text written to a destination other than
    the source is the text read. *)
Theorem filter_never_matches_across_lines
        (prog inp before after out : string) w text :
  after <> EmptyString ->
  ~ Spec.same_file w inp out ->
  deny_read w inp = None ->
  content w inp = Some text ->
  deny_write w out = None ->
  write_fault w (node w out) = None ->
  disk (run (main [prog; inp; before ++ String PyStr.LF after; out]) w) out
  = Some text.
Proof.
  intros Hafter Hd Hr Hc Hw Hwf.
  rewrite (disk_opened inp _ out w prog (read_refusal_none w inp text Hr Hc) Hw).
  unfold Spec.written.
  rewrite Hwf, (proj1 (source_lines_distinct inp out w text Hd Hc)).
  rewrite kept_all, join_readlines; [reflexivity|].
  intros line Hin; exact (contains_across_lines before after text line Hafter Hin).
Qed.

End FilterProperties.

(** *** The theorems at the sample files *)

Lemma first_qualifying_line_printed_witness :
  exists k first,
    1 < k <= 6 /\
    nth_error (PyStr.readlines Samples.bench_text) k = Some first /\
    Spec.qualifying first = true /\
    (forall j l, 1 < j < k ->
                 nth_error (PyStr.readlines Samples.bench_text) j = Some l ->
                 Spec.qualifying l = false) /\
    Py.run (firstline.main ["firstline.py"; "bench.txt"]) Samples.bench
    = Py.Process 0 (Py.stdout Samples.bench ++ [PyStr.strip first]) None
                 (Py.content Samples.bench) /\
    Spec.trimmed first (PyStr.strip first) /\
    (forall rest w',
       firstline.for_lines
         (Py.slice (PyStr.readlines Samples.bench_text) (1 + 1) k ++ first :: rest) w'
       = (Py.Ok firstline.Return, Py.put_line w' (PyStr.strip first))).
Proof.
  apply (first_qualifying_line_printed
           "firstline.py" "bench.txt" Samples.bench Samples.bench_text
           eq_refl eq_refl 1 7 eq_refl eq_refl 6
           (String.append "a b 1 d e f g" (String PyStr.LF EmptyString)));
    [lia | reflexivity | reflexivity].
Defined.




Lemma malformed_line_skipped_witness :
  firstline.body "a b x d e f g" Samples.bench
  = (Py.Ok firstline.Continue, Samples.bench).
Proof.
  exact (proj1 (malformed_line_skipped "a b x d e f g" eq_refl) Samples.bench).
Defined.


Lemma locator_usage_error_witness :
  Py.run (firstline.main ["firstline.py"]) Samples.bench
  = Py.Process 1 [firstline.USAGE] None (Py.content Samples.bench).
Proof.
  apply (locator_usage_error ["firstline.py"] Samples.bench).
  simpl; lia.
Defined.

Lemma locator_reads_region_only_witness :
  exists m,
    Py.printed (Py.run (firstline.main ["firstline.py"; "bench.txt"]) Samples.bench)
    = (Py.stdout Samples.bench ++ [m])%list /\
    Py.printed (Py.run (firstline.main ["firstline.py"; "framed.txt"])
                       MoreSamples.framed)
    = (Py.stdout MoreSamples.framed ++ [m])%list.
Proof.
  apply (locator_reads_region_only
           "firstline.py" "bench.txt" "firstline.py" "framed.txt"
           Samples.bench MoreSamples.framed
           Samples.bench_text MoreSamples.framed_text 1 7 1 7);
    vm_compute; reflexivity.
Defined.

Lemma locator_prints_a_record_witness :
  Spec.qualifying firstline.NO_LINE = false /\
  exists m,
    Py.printed (Py.run (firstline.main ["firstline.py"; "bench.txt"]) Samples.bench)
    = (Py.stdout Samples.bench ++ [m])%list /\
    ((m = firstline.NO_LINE /\
      forall line,
        In line (Py.slice (PyStr.readlines Samples.bench_text) (1 + 1) 7) ->
        Spec.qualifying line = false) \/
     (Spec.qualifying m = true /\
      PyStr.strip m = m /\
      exists line,
        In line (Py.slice (PyStr.readlines Samples.bench_text) (1 + 1) 7) /\
        Spec.qualifying line = true /\
        m = PyStr.strip line /\
        Spec.trimmed line m)).
Proof.
  apply (locator_prints_a_record
           "firstline.py" "bench.txt" Samples.bench Samples.bench_text 1 7);
    reflexivity.
Defined.

Lemma slow_record_skipped_witness :
  firstline.body "a b 6 d e f g" Samples.bench
  = (Py.Ok firstline.Continue, Samples.bench).
Proof.
  assert (Hn : (6 <= 6)%Z) by lia.
  exact (proj1 (slow_record_skipped "a b 6 d e f g" "6" 6
                  eq_refl eq_refl eq_refl Hn) Samples.bench).
Defined.

(** The examples of the specification. *)

Example locator_example_1 :
  Py.printed
    (Py.run (firstline.main ["firstline.py"; "log"])
       (Spec.one_file "log"
          (Spec.unlines ["OVERALL BEST:"; "a b 7 d e f g"; "a b 3 d e f g";
                         "Timings By Test Type:"])))
  = ["a b 3 d e f g"].
Proof. reflexivity. Qed.

Example locator_example_2 :
  Py.printed
    (Py.run (firstline.main ["firstline.py"; "log"])
       (Spec.one_file "log"
          (Spec.unlines ["OVERALL BEST:"; "Timings By Test Type:"])))
  = ["No line found where the third field is less than 6."].
Proof. reflexivity. Qed.

Example locator_example_3 :
  Py.run (firstline.main ["firstline.py"; "headless.txt"]) Samples.headless
  = Py.Process 1 ["Error: Could not find required markers in the file."] None
               (Py.content Samples.headless).
Proof. reflexivity. Qed.

Example locator_missing_file :
  Py.run (firstline.main ["firstline.py"; "nowhere.txt"]) Samples.bench
  = Py.Process 1 ["Error: File 'nowhere.txt' not found."] None
               (Py.content Samples.bench).
Proof. reflexivity. Qed.

Example locator_usage :
  Py.run (firstline.main ["firstline.py"]) Samples.bench
  = Py.Process 1 ["Usage: python3 script.py <filename>"] None
               (Py.content Samples.bench).
Proof. reflexivity. Qed.

Example locator_bench :
  Py.printed (Py.run (firstline.main ["firstline.py"; "bench.txt"]) Samples.bench)
  = ["a b 3 d e f g"].
Proof. reflexivity. Qed.

Example locator_ignores_lines_outside_region :
  Py.printed (Py.run (firstline.main ["firstline.py"; "framed.txt"])
                     MoreSamples.framed)
  = ["a b 3 d e f g"].
Proof. reflexivity. Qed.

(** A file that opens and does not decode: the error reaches the
    interpreter. *)
Example locator_undecodable_file :
  Py.run (firstline.main ["firstline.py"; "torn.txt"]) MoreSamples.torn
  = Py.Process 1 [] (Some Py.UnicodeDecodeError) (Py.content MoreSamples.torn).
Proof. reflexivity. Qed.

(** The limit on the digits of a literal: a record whose third field has
    4300 digits qualifies, one with 4301 digits is no record. *)
Example digit_limit :
  Spec.qualifying (MoreSamples.long_record 4300) = true /\
  Spec.qualifying (MoreSamples.long_record 4301) = false /\
  Spec.malformed (MoreSamples.long_record 4301) = true.
Proof. vm_compute; auto. Qed.

Lemma notes_kept_distinct : ~ Spec.same_file Samples.notes "notes.txt" "kept.txt".
Proof. unfold Spec.same_file; simpl; discriminate. Qed.

Lemma notes_mid_distinct : ~ Spec.same_file Samples.notes "notes.txt" "mid.txt".
Proof. unfold Spec.same_file; simpl; discriminate. Qed.

Lemma filter_keeps_other_lines_witness :
  Py.disk (Py.run (remove_lines.main
                     ["remove_lines.py"; "notes.txt"; "drop"; "kept.txt"])
                  Samples.notes) "kept.txt"
  = Some (Spec.unlines ["keep1"] ++ "keep2").
Proof.
  exact (proj1 (filter_keeps_other_lines
                  "remove_lines.py" "notes.txt" "drop" "kept.txt"
                  Samples.notes Samples.notes_text
                  notes_kept_distinct eq_refl eq_refl eq_refl eq_refl)).
Defined.

Lemma empty_substring_removes_all_witness :
  Py.disk (Py.run (remove_lines.main
                     ["remove_lines.py"; "notes.txt"; EmptyString; "kept.txt"])
                  Samples.notes) "kept.txt"
  = Some EmptyString.
Proof.
  assert (Hne : Samples.notes_text <> EmptyString) by discriminate.
  destruct (empty_substring_removes_all
              "remove_lines.py" "notes.txt" "kept.txt"
              Samples.notes Samples.notes_text Hne eq_refl eq_refl eq_refl)
    as [_ [_ [Hout _]]].
  exact Hout.
Defined.

Lemma filter_idempotent_witness :
  Py.disk (Py.run (remove_lines.main
                     ["remove_lines.py"; "kept.txt"; "drop"; "again.txt"])
                  (Spec.after (remove_lines.main
                                 ["remove_lines.py"; "notes.txt"; "drop"; "kept.txt"])
                              Samples.notes)) "again.txt"
  = Py.content (Spec.after (remove_lines.main
                              ["remove_lines.py"; "notes.txt"; "drop"; "kept.txt"])
                           Samples.notes) "kept.txt".
Proof.
  assert (Hd' : ~ Spec.same_file Samples.notes "kept.txt" "again.txt")
    by (unfold Spec.same_file; simpl; discriminate).
  destruct (filter_idempotent
              "remove_lines.py" "notes.txt" "drop" "kept.txt" "again.txt"
              Samples.notes Samples.notes_text
              notes_kept_distinct Hd'
              eq_refl eq_refl eq_refl eq_refl eq_refl eq_refl eq_refl)
    as [_ [_ [Hagain _]]].
  exact Hagain.
Defined.

Lemma filter_in_place_empties_file_witness :
  Py.disk (Py.run (remove_lines.main
                     ["remove_lines.py"; "notes.txt"; "drop"; "notes.txt"])
                  Samples.notes) "notes.txt" = Some EmptyString /\
  Py.status (Py.run (remove_lines.main
                       ["remove_lines.py"; "notes.txt"; "drop"; "notes.txt"])
                    Samples.notes) = 0%Z /\
  Py.printed (Py.run (remove_lines.main
                        ["remove_lines.py"; "notes.txt"; "drop"; "notes.txt"])
                     Samples.notes)
  = (Py.stdout Samples.notes ++ [remove_lines.done "drop" "notes.txt"])%list.
Proof.
  apply (filter_in_place_empties_file
           "remove_lines.py" "notes.txt" "drop" Samples.notes);
    reflexivity.
Defined.

Lemma filter_touches_only_destination_witness :
  Py.disk (Py.run (remove_lines.main
                     ["remove_lines.py"; "notes.txt"; "drop"; "kept.txt"])
                  Samples.notes) "notes.txt"
  = Py.content Samples.notes "notes.txt".
Proof.
  apply (filter_touches_only_destination
           ["remove_lines.py"; "notes.txt"; "drop"; "kept.txt"]
           Samples.notes "notes.txt").
  intros out [= <-]; exact notes_kept_distinct.
Defined.

Lemma filter_success_report_witness :
  Py.status (Py.run (remove_lines.main
                       ["remove_lines.py"; "notes.txt"; "drop"; "kept.txt"])
                    Samples.notes) = 0%Z /\
  Py.traceback (Py.run (remove_lines.main
                          ["remove_lines.py"; "notes.txt"; "drop"; "kept.txt"])
                       Samples.notes) = None /\
  Py.printed (Py.run (remove_lines.main
                        ["remove_lines.py"; "notes.txt"; "drop"; "kept.txt"])
                     Samples.notes)
  = (Py.stdout Samples.notes ++ [remove_lines.done "drop" "kept.txt"])%list /\
  Py.disk (Py.run (remove_lines.main
                     ["remove_lines.py"; "notes.txt"; "drop"; "kept.txt"])
                  Samples.notes) "kept.txt" <> None.
Proof.
  apply (filter_success_report
           "remove_lines.py" "notes.txt" "drop" "kept.txt" Samples.notes
           Samples.notes_text);
    reflexivity.
Defined.

Lemma filter_copies_when_nothing_matches_witness :
  Py.disk (Py.run (remove_lines.main
                     ["remove_lines.py"; "notes.txt"; "zzz"; "kept.txt"])
                  Samples.notes) "kept.txt"
  = Some Samples.notes_text.
Proof.
  apply (filter_copies_when_nothing_matches
           "remove_lines.py" "notes.txt" "zzz" "kept.txt"
           Samples.notes Samples.notes_text);
    [exact notes_kept_distinct | reflexivity | reflexivity | reflexivity
     | reflexivity |].
  intros line Hin; simpl in Hin.
  destruct Hin as [<-|[<-|[<-|[]]]]; reflexivity.
Defined.

Lemma filter_output_free_of_substring_witness :
  exists written,
    Py.disk (Py.run (remove_lines.main
                       ["remove_lines.py"; "notes.txt"; "drop"; "kept.txt"])
                    Samples.notes) "kept.txt" = Some written /\
    forall line, In line (PyStr.readlines written) ->
                 PyStr.contains "drop" line = false.
Proof.
  apply (filter_output_free_of_substring
           "remove_lines.py" "notes.txt" "drop" "kept.txt"
           Samples.notes Samples.notes_text);
    [discriminate | reflexivity | reflexivity | reflexivity].
Defined.

Lemma filter_twice_keeps_neither_witness :
  Py.disk (Py.run (remove_lines.main
                     ["remove_lines.py"; "mid.txt"; "keep1"; "out.txt"])
                  (Spec.after (remove_lines.main
                                 ["remove_lines.py"; "notes.txt"; "drop"; "mid.txt"])
                              Samples.notes)) "out.txt"
  = Some (Spec.join
            (filter (fun line => negb (PyStr.contains "drop" line)
                                 && negb (PyStr.contains "keep1" line))
                    (PyStr.readlines Samples.notes_text))).
Proof.
  assert (Hd' : ~ Spec.same_file Samples.notes "mid.txt" "out.txt")
    by (unfold Spec.same_file; simpl; discriminate).
  apply (filter_twice_keeps_neither
           "remove_lines.py" "notes.txt" "drop" "mid.txt" "keep1" "out.txt"
           Samples.notes Samples.notes_text notes_mid_distinct Hd');
    reflexivity.
Defined.

Lemma filters_commute_witness :
  Py.disk (Py.run (remove_lines.main
                     ["remove_lines.py"; "mid.txt"; "keep1"; "out.txt"])
                  (Spec.after (remove_lines.main
                                 ["remove_lines.py"; "notes.txt"; "drop"; "mid.txt"])
                              Samples.notes)) "out.txt"
  = Py.disk (Py.run (remove_lines.main
                       ["remove_lines.py"; "mid.txt"; "drop"; "out.txt"])
                    (Spec.after (remove_lines.main
                                   ["remove_lines.py"; "notes.txt"; "keep1"; "mid.txt"])
                                Samples.notes)) "out.txt".
Proof.
  apply (filters_commute
           "remove_lines.py" "notes.txt" "drop" "mid.txt" "keep1" "out.txt"
           Samples.notes Samples.notes_text);
    [discriminate | discriminate | reflexivity ..].
Defined.

Lemma filter_never_matches_across_lines_witness :
  Py.disk (Py.run (remove_lines.main
                     ["remove_lines.py"; "notes.txt";
                      String.append "keep1" (String PyStr.LF "drop"); "kept.txt"])
                  Samples.notes) "kept.txt"
  = Some Samples.notes_text.
Proof.
  apply (filter_never_matches_across_lines
           "remove_lines.py" "notes.txt" "keep1" "drop" "kept.txt"
           Samples.notes Samples.notes_text);
    [discriminate | exact notes_kept_distinct | reflexivity ..].
Defined.

(** The examples of the specification, and the failures. *)

Example filter_example_4 :
  option_map PyStr.readlines
    (Py.disk (Py.run (remove_lines.main ["remove_lines.py"; "in"; "drop"; "out"])
                     (Spec.one_file "in" (Spec.unlines ["keep1"; "drop-me"; "keep2"])))
             "out")
  = Some (PyStr.readlines (Spec.unlines ["keep1"; "keep2"])).
Proof. reflexivity. Qed.

Example filter_example_5 :
  Py.disk (Py.run (remove_lines.main ["remove_lines.py"; "in"; EmptyString; "out"])
                  (Spec.one_file "in" (Spec.unlines ["keep1"; "drop-me"; "keep2"])))
          "out"
  = Some EmptyString.
Proof. reflexivity. Qed.

Example filter_reports :
  Py.printed (Py.run (remove_lines.main
                        ["remove_lines.py"; "notes.txt"; "drop"; "kept.txt"])
                     Samples.notes)
  = ["Lines containing 'drop' have been written to 'kept.txt'."].
Proof. reflexivity. Qed.

Example filter_missing_source :
  Py.run (remove_lines.main ["remove_lines.py"; "nowhere.txt"; "drop"; "kept.txt"])
         Samples.notes
  = Py.Process 1 [] (Some (Py.OSError Py.FileNotFoundError))
               (Py.content Samples.notes).
Proof. reflexivity. Qed.

Example filter_unreadable_source :
  Py.run (remove_lines.main ["remove_lines.py"; "secret.txt"; "drop"; "kept.txt"])
         Samples.guarded
  = Py.Process 1 [] (Some (Py.OSError Py.PermissionError))
               (Py.content Samples.guarded).
Proof. reflexivity. Qed.

Example filter_unwritable_destination :
  Py.status (Py.run (remove_lines.main
                       ["remove_lines.py"; "secret.txt"; "drop"; "/proc/kept"])
                    (Py.World (Py.node Samples.guarded) (Py.data Samples.guarded)
                              (fun _ => None) (Py.deny_write Samples.guarded)
                              (fun _ => None) [])) = 1%Z /\
  Py.traceback (Py.run (remove_lines.main
                          ["remove_lines.py"; "secret.txt"; "drop"; "/proc/kept"])
                       (Py.World (Py.node Samples.guarded) (Py.data Samples.guarded)
                                 (fun _ => None) (Py.deny_write Samples.guarded)
                                 (fun _ => None) []))
  = Some (Py.OSError Py.PermissionError).
Proof. split; reflexivity. Qed.

Example filter_usage :
  Py.run (remove_lines.main ["remove_lines.py"; "notes.txt"; "drop"]) Samples.notes
  = Py.Process 1
      ["Usage: python remove_lines.py <input_file> <search_string> <output_file>"]
      None (Py.content Samples.notes).
Proof. reflexivity. Qed.

Example filter_in_place :
  Py.disk (Py.run (remove_lines.main
                     ["remove_lines.py"; "notes.txt"; "drop"; "notes.txt"])
                  Samples.notes) "notes.txt"
  = Some EmptyString.
Proof. reflexivity. Qed.

(** Another spelling of the source as destination: the one file is emptied
    before it is read, and both paths show it empty. *)
Example filter_onto_alias :
  Py.disk (Py.run (remove_lines.main
                     ["remove_lines.py"; "notes.txt"; "drop"; "./notes.txt"])
                  MoreSamples.linked) "notes.txt" = Some EmptyString /\
  Py.disk (Py.run (remove_lines.main
                     ["remove_lines.py"; "notes.txt"; "drop"; "./notes.txt"])
                  MoreSamples.linked) "./notes.txt" = Some EmptyString /\
  Py.status (Py.run (remove_lines.main
                       ["remove_lines.py"; "notes.txt"; "drop"; "./notes.txt"])
                    MoreSamples.linked) = 0%Z.
Proof. repeat split; reflexivity. Qed.

(** A source that opens and does not decode: the lines delivered before the
    error are filtered, then the error reaches the interpreter. *)
Example filter_undecodable_source :
  Py.status (Py.run (remove_lines.main
                       ["remove_lines.py"; "torn.txt"; "BEST"; "kept.txt"])
                    MoreSamples.torn) = 1%Z /\
  Py.traceback (Py.run (remove_lines.main
                          ["remove_lines.py"; "torn.txt"; "BEST"; "kept.txt"])
                       MoreSamples.torn) = Some Py.UnicodeDecodeError /\
  Py.printed (Py.run (remove_lines.main
                        ["remove_lines.py"; "torn.txt"; "BEST"; "kept.txt"])
                     MoreSamples.torn) = [] /\
  Py.disk (Py.run (remove_lines.main
                     ["remove_lines.py"; "torn.txt"; "BEST"; "kept.txt"])
                  MoreSamples.torn) "kept.txt"
  = Some (Spec.unlines ["Timings By Test Type:"]).
Proof. repeat split; reflexivity. Qed.

(** A destination that takes no data: the first write fails; with nothing
    to write the run succeeds. *)
Example filter_full_device :
  Py.status (Py.run (remove_lines.main
                       ["remove_lines.py"; "notes.txt"; "drop"; "/dev/full"])
                    MoreSamples.full) = 1%Z /\
  Py.traceback (Py.run (remove_lines.main
                          ["remove_lines.py"; "notes.txt"; "drop"; "/dev/full"])
                       MoreSamples.full)
  = Some (Py.OSError (Py.OtherOSError 28)) /\
  Py.status (Py.run (remove_lines.main
                       ["remove_lines.py"; "notes.txt"; "e"; "/dev/full"])
                    MoreSamples.full) = 0%Z.
Proof. repeat split; reflexivity. Qed.

(** A third field beyond the limit on digits is no integer: the line is
    passed over and the next record is printed. *)
Example locator_skips_overlong_field :
  Py.printed (Py.run (firstline.main ["firstline.py"; "overlong.txt"])
                     MoreSamples.overlong)
  = ["a b 1 d e f g"].
Proof. vm_compute; reflexivity. Qed.

(** The string built-ins at a few inputs. *)

Example split_fields :
  PyStr.split (PyStr.strip "  a b  3 d e   f g  ")
  = ["a"; "b"; "3"; "d"; "e"; "f"; "g"].
Proof. reflexivity. Qed.

Example int_literals :
  map PyStr.int ["3"; "-12"; "+007"; "1_000"; "1__0"; "_1"; "1_"; "-"; "3.0"; "x";
                 " 5 "; String (ascii_of_nat 160) "5"; String (ascii_of_nat 28) "5"]
  = [Some 3; Some (-12); Some 7; Some 1000; None; None; None; None; None; None;
     Some 5; Some 5; None]%Z.
Proof. reflexivity. Qed.

Example readlines_last_line_open :
  PyStr.readlines Samples.notes_text
  = [String.append "keep1" (String PyStr.LF EmptyString);
     String.append "drop-me" (String PyStr.LF EmptyString);
     "keep2"].
Proof. reflexivity. Qed.
